(** * RGBPlaneCoefficientComparator (pcl/segmentation/rgb_plane_coefficient_comparator.h)

    A shallow embedding of the comparator class and a verification of the
    properties its specification states.

    Numbers are modelled as the code has them: [float] is IEEE-754 binary32
    and [double] is IEEE-754 binary64, both with round-to-nearest-even, as
    specified by [SpecFloat] (every operation is evaluated in the format of
    its C++ operand types, without contraction into fused operations);
    [int] is a 32-bit two's complement integer; a colour channel is a byte.

    [cosf] and [acosf] belong to the C library and not to this repository:
    they are an interface ([Libm]) the definitions are parametric in. *)

From Stdlib Require Import ZArith List Bool Lia.
From Stdlib Require Import Strings.Byte.
From Stdlib Require Import Floats.SpecFloat.
Import ListNotations.

Local Open Scope Z_scope.

(** ** Floating-point formats *)

Module F32.
Definition prec : Z := 24.
Definition emax : Z := 128.
Definition add := SFadd prec emax.
Definition sub := SFsub prec emax.
Definition mul := SFmul prec emax.
Definition ltb := SFltb.
Definition leb := SFleb.
Definition eqb := SFeqb.
Definition valid := valid_binary prec emax.
Definition zero : spec_float := S754_zero false.
(** 1.0f and the float just below it *)
Definition one : spec_float := S754_finite false 8388608 (-23).
Definition pred_one : spec_float := S754_finite false 16777215 (-24).
(** The two smallest positive floats, 2^-149 and 2^-148 *)
Definition tiny1 : spec_float := S754_finite false 1 (-149).
Definition tiny2 : spec_float := S754_finite false 2 (-149).
End F32.

Module F64.
Definition prec : Z := 53.
Definition emax : Z := 1024.
Definition add := SFadd prec emax.
Definition sub := SFsub prec emax.
Definition mul := SFmul prec emax.
Definition div := SFdiv prec emax.
Definition sqrt := SFsqrt prec emax.
Definition ltb := SFltb.
Definition zero : spec_float := S754_zero false.
End F64.

Definition float : Type := spec_float.
Definition double : Type := spec_float.

(** Implicit conversion float -> double (exact). *)
Definition float_to_double (f : float) : double :=
  match f with
  | S754_finite s m e => binary_round F64.prec F64.emax s m e
  | _ => f
  end.

(** Conversion double -> float (rounds to nearest even). *)
Definition double_to_float (d : double) : float :=
  match d with
  | S754_finite s m e => binary_round F32.prec F32.emax s m e
  | _ => d
  end.

(** ** 32-bit [int] arithmetic, wrap-around written out *)

Definition wrap_int (z : Z) : Z := (z + 2 ^ 31) mod 2 ^ 32 - 2 ^ 31.
Definition int_sub (a b : Z) : Z := wrap_int (a - b).
Definition int_add (a b : Z) : Z := wrap_int (a + b).
Definition int_mul (a b : Z) : Z := wrap_int (a * b).

(** Integral promotion of a colour channel (uint8_t) to [int]. *)
Definition chan (c : byte) : Z := Z.of_N (Byte.to_N c).

(** [static_cast<float>] of an [int]. *)
Definition int_to_float (n : Z) : float :=
  binary_normalize F32.prec F32.emax n 0 false.

(** Conversion of an [int] to [double]. *)
Definition int_to_double (n : Z) : double :=
  binary_normalize F64.prec F64.emax n 0 false.

(** A decimal literal of type [double] with value [num/den]: the correctly
    rounded quotient (both integers are below 2^53, so they convert
    exactly). *)
Definition double_lit (num den : Z) : double :=
  F64.div (int_to_double num) (int_to_double den).

(** The literal converted to [float], as in the initialisation of a [float]
    member from a [double] literal. *)
Definition float_lit (num den : Z) : float :=
  double_to_float (double_lit num den).

(** ** Data model *)

(** The point type [PointT]: a position and the colour channels the
    comparator reads ([x], [y], [z] are [float], [r], [g], [b] are
    [uint8_t]). *)
Module PointT.
Record t : Type := mk
  { x : float; y : float; z : float; r : byte; g : byte; b : byte }.
End PointT.

(** The normal type [PointNT]: the three components
    [getNormalVector3fMap ()] exposes. *)
Module PointNT.
Record t : Type := mk
  { normal_x : float; normal_y : float; normal_z : float }.
End PointNT.

(** [pcl::PointCloud<P>::points] *)
Definition PointCloud : Type := list PointT.t.
Definition PointCloudN : Type := list PointNT.t.

(** The C library functions the class calls. *)
Class Libm : Type := { cosf : float -> float; acosf : float -> float }.

(** The object's state.  A shared pointer is [None] when null; the three
    thresholds are the members the class declares itself.

    Modelled from the spec: the members [input_], [normals_] and
    [plane_coeff_d_] are declared by the base classes [Comparator] and
    [PlaneCoefficientComparator], whose headers are not part of the
    sources; they are references to the externally owned point sequence,
    normal sequence and plane-coefficient vector, unset until installed. *)
Record RGBPlaneCoefficientComparator : Type := mkComparator
  { input_ : option PointCloud;
    normals_ : option PointCloudN;
    plane_coeff_d_ : option (list float);
    angular_threshold_ : float;
    distance_threshold_ : float;
    color_threshold_ : float }.

Definition Comparator : Type := RGBPlaneCoefficientComparator.

(** ** A state monad with undefined behaviour as failure *)

Definition M (A : Type) : Type := Comparator -> option (A * Comparator).

Definition ret {A} (a : A) : M A := fun s => Some (a, s).

Definition bind {A B} (m : M A) (k : A -> M B) : M B :=
  fun s => match m s with
           | Some (a, s') => k a s'
           | None => None
           end.

Notation "x <- m ;; k" := (bind m (fun x => k))
  (at level 61, m at next level, right associativity).

(** Read a member of [*this]. *)
Definition member {A} (field : Comparator -> A) : M A :=
  fun s => Some (field s, s).

(** Dereference a shared pointer: undefined when null. *)
Definition deref {A} (p : option A) : M A :=
  fun s => match p with Some v => Some (v, s) | None => None end.

(** [operator[]] of [std::vector] at an [int] index: undefined outside
    [0, size). *)
Definition at_index {A} (v : list A) (i : Z) : option A :=
  if i <? 0 then None else nth_error v (Z.to_nat i).

Definition index {A} (v : list A) (i : Z) : M A :=
  fun s => match at_index v i with Some a => Some (a, s) | None => None end.

(** The value a call returns, without the final state. *)
Definition result {A} (o : option (A * Comparator)) : option A :=
  match o with Some (a, _) => Some a | None => None end.

(** ** Construction *)

(** Modelled from the spec: the default constructors of the base classes
    (not part of the sources) leave the three references unset. *)
Definition base_input_ : option PointCloud := None.
Definition base_normals_ : option PointCloudN := None.
Definition base_plane_coeff_d_ : option (list float) := None.

(** [RGBPlaneCoefficientComparator ()] *)
Definition new : Comparator :=
  {| input_ := base_input_;
     normals_ := base_normals_;
     plane_coeff_d_ := base_plane_coeff_d_;
     angular_threshold_ := int_to_float 0;
     distance_threshold_ := float_lit 2 100;
     color_threshold_ := float_lit 50 1 |}.

(** [RGBPlaneCoefficientComparator (boost::shared_ptr<std::vector<float> >& plane_coeff_d)] *)
Definition new_plane_coeff_d (plane_coeff_d : option (list float)) : Comparator :=
  {| input_ := base_input_;
     normals_ := base_normals_;
     plane_coeff_d_ := base_plane_coeff_d_;
     angular_threshold_ := int_to_float 0;
     distance_threshold_ := float_lit 2 100;
     color_threshold_ := float_lit 50 1 |}.

(** ** Configuration *)

(** Modelled from the spec: [setInputCloud] of the base class [Comparator]
    (not part of the sources) installs the point sequence. *)
Definition setInputCloud (cloud : option PointCloud) (s : Comparator) : Comparator :=
  {| input_ := cloud;
     normals_ := normals_ s;
     plane_coeff_d_ := plane_coeff_d_ s;
     angular_threshold_ := angular_threshold_ s;
     distance_threshold_ := distance_threshold_ s;
     color_threshold_ := color_threshold_ s |}.

Definition setInputNormals (normals : option PointCloudN) (s : Comparator) : Comparator :=
  {| input_ := input_ s;
     normals_ := normals;
     plane_coeff_d_ := plane_coeff_d_ s;
     angular_threshold_ := angular_threshold_ s;
     distance_threshold_ := distance_threshold_ s;
     color_threshold_ := color_threshold_ s |}.

Definition getInputNormals (s : Comparator) : option PointCloudN := normals_ s.

(** [setPlaneCoeffD (boost::shared_ptr<std::vector<float> >&)] *)
Definition setPlaneCoeffD (plane_coeff_d : option (list float)) (s : Comparator) : Comparator :=
  {| input_ := input_ s;
     normals_ := normals_ s;
     plane_coeff_d_ := plane_coeff_d;
     angular_threshold_ := angular_threshold_ s;
     distance_threshold_ := distance_threshold_ s;
     color_threshold_ := color_threshold_ s |}.

(** [setPlaneCoeffD (std::vector<float>&)]: a fresh shared copy. *)
Definition setPlaneCoeffD_vector (plane_coeff_d : list float) (s : Comparator) : Comparator :=
  setPlaneCoeffD (Some plane_coeff_d) s.

Definition setAngularThreshold `{Libm} (angular_threshold : float) (s : Comparator) : Comparator :=
  {| input_ := input_ s;
     normals_ := normals_ s;
     plane_coeff_d_ := plane_coeff_d_ s;
     angular_threshold_ := cosf angular_threshold;
     distance_threshold_ := distance_threshold_ s;
     color_threshold_ := color_threshold_ s |}.

Definition getAngularThreshold `{Libm} (s : Comparator) : float :=
  acosf (angular_threshold_ s).

Definition setDistanceThreshold (distance_threshold : float) (s : Comparator) : Comparator :=
  {| input_ := input_ s;
     normals_ := normals_ s;
     plane_coeff_d_ := plane_coeff_d_ s;
     angular_threshold_ := angular_threshold_ s;
     distance_threshold_ := F32.mul distance_threshold distance_threshold;
     color_threshold_ := color_threshold_ s |}.

Definition getDistanceThreshold (s : Comparator) : float := distance_threshold_ s.

Definition setColorThreshold (color_threshold : float) (s : Comparator) : Comparator :=
  {| input_ := input_ s;
     normals_ := normals_ s;
     plane_coeff_d_ := plane_coeff_d_ s;
     angular_threshold_ := angular_threshold_ s;
     distance_threshold_ := distance_threshold_ s;
     color_threshold_ := F32.mul color_threshold color_threshold |}.

Definition getColorThreshold (s : Comparator) : float := color_threshold_ s.

(** ** The comparison *)

(** [a.getNormalVector3fMap ().dot (b.getNormalVector3fMap ())]: Eigen's
    unrolled reduction of the three [float] products, which adds the first
    to the sum of the other two.  (Eigen is not part of the sources; what
    is proved below uses only that each product is commutative, so it
    holds for the other order of the additions as well.) *)
Definition dot (a b : PointNT.t) : float :=
  F32.add (F32.mul (PointNT.normal_x a) (PointNT.normal_x b))
          (F32.add (F32.mul (PointNT.normal_y a) (PointNT.normal_y b))
                   (F32.mul (PointNT.normal_z a) (PointNT.normal_z b))).

(** [double dist = sqrt (dx*dx + dy*dy + dz*dz)] with
    [double dx = p1.x - p2.x] (a [float] difference, widened). *)
Definition dist_of (p1 p2 : PointT.t) : double :=
  let dx := float_to_double (F32.sub (PointT.x p1) (PointT.x p2)) in
  let dy := float_to_double (F32.sub (PointT.y p1) (PointT.y p2)) in
  let dz := float_to_double (F32.sub (PointT.z p1) (PointT.z p2)) in
  F64.sqrt (F64.add (F64.add (F64.mul dx dx) (F64.mul dy dy)) (F64.mul dz dz)).

(** [float color_dist = static_cast<float> (dr*dr + dg*dg + db*db)] with
    [int dr = p1.r - p2.r]. *)
Definition color_dist_of (p1 p2 : PointT.t) : float :=
  let dr := int_sub (chan (PointT.r p1)) (chan (PointT.r p2)) in
  let dg := int_sub (chan (PointT.g p1)) (chan (PointT.g p2)) in
  let db := int_sub (chan (PointT.b p1)) (chan (PointT.b p2)) in
  int_to_float (int_add (int_add (int_mul dr dr) (int_mul dg dg)) (int_mul db db)).

(** [bool compare (int idx1, int idx2) const].  The operands of [&&] are
    evaluated left to right and only as far as needed, so the normals are
    read only when the distance test has passed. *)
Definition compare (idx1 idx2 : Z) : M bool :=
  input <- member input_ ;;
  cloud <- deref input ;;
  p1 <- index cloud idx1 ;;
  p2 <- index cloud idx2 ;;
  let dist := dist_of p1 p2 in
  let color_dist := color_dist_of p1 p2 in
  distance_threshold <- member distance_threshold_ ;;
  if F64.ltb dist (float_to_double distance_threshold) then
    normals <- member normals_ ;;
    ncloud <- deref normals ;;
    n1 <- index ncloud idx1 ;;
    n2 <- index ncloud idx2 ;;
    angular_threshold <- member angular_threshold_ ;;
    if F32.ltb angular_threshold (dot n1 n2) then
      color_threshold <- member color_threshold_ ;;
      ret (F32.ltb color_dist color_threshold)
    else ret false
  else ret false.

(** ** The three tests, as the specification words them *)

Definition sq (d : double) : double := F64.mul d d.

(** Square root of the summed squared coordinate differences. *)
Definition euclidean_distance (p q : PointT.t) : double :=
  let diff (c : PointT.t -> float) := float_to_double (F32.sub (c p) (c q)) in
  F64.sqrt (fold_left (fun acc c => F64.add acc (sq (diff c)))
                      [PointT.y; PointT.z] (sq (diff PointT.x))).

(** Sum of the squared per-channel differences, as an exact integer. *)
Definition squared_color_distance (p q : PointT.t) : Z :=
  fold_right Z.add 0
    (map (fun c : PointT.t -> byte => (chan (c p) - chan (c q)) * (chan (c p) - chan (c q)))
         [PointT.r; PointT.g; PointT.b]).

Definition distance_test (s : Comparator) (p q : PointT.t) : bool :=
  F64.ltb (euclidean_distance p q) (float_to_double (distance_threshold_ s)).

Definition normal_test (s : Comparator) (n1 n2 : PointNT.t) : bool :=
  F32.ltb (angular_threshold_ s) (dot n1 n2).

Definition color_test (s : Comparator) (p q : PointT.t) : bool :=
  F32.ltb (int_to_float (squared_color_distance p q)) (color_threshold_ s).

(** Neither NaN nor an infinity. *)
Definition is_finite (f : float) : bool :=
  match f with
  | S754_zero _ | S754_finite _ _ _ => true
  | _ => false
  end.

(** Floats that are not below zero: what a rounding with a positive sign
    and a square root return. *)
Definition not_negative (f : spec_float) : bool :=
  match f with
  | S754_finite true _ _ | S754_infinity true => false
  | _ => true
  end.

(** The exact sum of squared channel differences. *)
Definition sum_sq (r1 g1 b1 r2 g2 b2 : Z) : Z :=
  (r1 - r2) * (r1 - r2) + (g1 - g2) * (g1 - g2) + (b1 - b2) * (b1 - b2).

(** Both indices are inside the configured point and normal sequences. *)
Definition in_bounds (s : Comparator) (i j : Z) : bool :=
  match input_ s, normals_ s with
  | Some cloud, Some ncloud =>
      match at_index cloud i, at_index cloud j,
            at_index ncloud i, at_index ncloud j with
      | Some _, Some _, Some _, Some _ => true
      | _, _, _, _ => false
      end
  | _, _ => false
  end.

(** ** Runs of configuration calls *)

Inductive call : Type :=
| SetInputCloud (cloud : option PointCloud)
| SetInputNormals (normals : option PointCloudN)
| SetPlaneCoeffD (plane_coeff_d : option (list float))
| SetPlaneCoeffD_vector (plane_coeff_d : list float)
| SetAngularThreshold (angular_threshold : float)
| SetDistanceThreshold (distance_threshold : float)
| SetColorThreshold (color_threshold : float).

Definition do_call `{Libm} (c : call) (s : Comparator) : Comparator :=
  match c with
  | SetInputCloud cloud => setInputCloud cloud s
  | SetInputNormals normals => setInputNormals normals s
  | SetPlaneCoeffD v => setPlaneCoeffD v s
  | SetPlaneCoeffD_vector v => setPlaneCoeffD_vector v s
  | SetAngularThreshold a => setAngularThreshold a s
  | SetDistanceThreshold d => setDistanceThreshold d s
  | SetColorThreshold c => setColorThreshold c s
  end.

(** The calls of a run, applied in order. *)
Definition run `{Libm} (cs : list call) (s : Comparator) : Comparator :=
  fold_left (fun st c => do_call c st) cs s.

Definition is_plane_call (c : call) : bool :=
  match c with
  | SetPlaneCoeffD _ | SetPlaneCoeffD_vector _ => true
  | _ => false
  end.

(** A run without its [setPlaneCoeffD] calls. *)
Definition without_plane_calls (cs : list call) : list call :=
  filter (fun c => negb (is_plane_call c)) cs.

(** The state with the plane-coefficient reference forgotten. *)
Definition forget_plane (s : Comparator) : Comparator := setPlaneCoeffD None s.

(** ** A sample C library

    An instance of [Libm], used to run the statements that are generic in
    the C library on concrete inputs: the cosine by its Taylor polynomial
    of degree 24 evaluated in [double] (adequate on [-pi, pi]), the arc
    cosine by bisection of that cosine over [0, pi]. *)

Fixpoint cos_horner (u : double) (n : nat) (acc : double) : double :=
  match n with
  | O => acc
  | S n' =>
      let k := Z.of_nat n in
      cos_horner u n'
        (F64.sub (int_to_double 1)
           (F64.div (F64.mul u acc) (int_to_double ((2 * k - 1) * (2 * k)))))
  end.

Definition taylor_cos (x : double) : double :=
  cos_horner (F64.mul x x) 12 (int_to_double 1).

Definition pi_double : double := double_lit 314159265358979 100000000000000.

Fixpoint acos_bisect (x : double) (n : nat) (lo hi : double) : double :=
  let mid := F64.div (F64.add lo hi) (int_to_double 2) in
  match n with
  | O => mid
  | S n' =>
      if F64.ltb x (taylor_cos mid) then acos_bisect x n' mid hi
      else acos_bisect x n' lo mid
  end.

Definition sample_cosf (x : float) : float :=
  double_to_float (taylor_cos (float_to_double x)).

Definition sample_acosf (x : float) : float :=
  if SFleb (int_to_float (-1)) x && SFleb x (int_to_float 1)
  then double_to_float (acos_bisect (float_to_double x) 60 (int_to_double 0) pi_double)
  else S754_nan.

Definition sample_libm : Libm := {| cosf := sample_cosf; acosf := sample_acosf |}.

(** ** Sample inputs *)

(** pi rounded to [float] *)
Definition pi_float : float := double_to_float pi_double.

(** Two neighbouring cells 1 cm apart, with parallel normals and colours
    that differ by 5 in the red channel. *)
Definition cell_a : PointT.t :=
  PointT.mk (int_to_float 0) (int_to_float 0) (int_to_float 0) x64 x64 x64.
Definition cell_b : PointT.t :=
  PointT.mk (int_to_float 0) (int_to_float 0) (float_lit 1 100) x69 x64 x64.
Definition up : PointNT.t :=
  PointNT.mk (int_to_float 0) (int_to_float 0) (int_to_float 1).

Definition sample_cloud : PointCloud := [cell_a; cell_b; cell_a].
Definition sample_normals : PointCloudN := [up; up; up].

(** A freshly constructed comparator given the sample sequences. *)
Definition sample_comparator : Comparator :=
  setInputNormals (Some sample_normals) (setInputCloud (Some sample_cloud) new).

(** A cell without a valid measurement (organized clouds mark it with NaN
    coordinates), and a comparator over a cloud that starts with it. *)
Definition cell_nan : PointT.t :=
  PointT.mk S754_nan S754_nan S754_nan x64 x64 x64.

Definition nan_comparator : Comparator :=
  setInputCloud (Some [cell_nan; cell_nan; cell_a]) sample_comparator.

(** ** Accuracy of the C library near zero

    For [0 <= t <= 2^-148] the cosine of [t] lies between the float just
    below 1 and 1, so a cosine that returns one of the two floats enclosing
    the exact value (a faithful rounding, as an implementation with an
    error below one unit in the last place does) returns one of these
    two. *)
Definition cosf_faithful_near_zero (L : Libm) : Prop :=
  forall t : float,
    In t [F32.zero; F32.tiny1; F32.tiny2] ->
    @cosf L t = F32.one \/ @cosf L t = F32.pred_one.

(** ** Notions used to state further properties *)

(** All three coordinates are finite. *)
Definition finite_position (p : PointT.t) : bool :=
  is_finite (PointT.x p) && is_finite (PointT.y p) && is_finite (PointT.z p).

(** NaN or plus infinity: what a distance is when a coordinate is not
    finite. *)
Definition pinf_or_nan (f : spec_float) : bool :=
  match f with
  | S754_nan | S754_infinity false => true
  | _ => false
  end.

Definition is_nan (f : spec_float) : bool :=
  match f with S754_nan => true | _ => false end.

(** The entry of a possibly unset sequence at an index. *)
Definition entry_at {A} (v : option (list A)) (i : Z) : option A :=
  match v with
  | Some l => at_index l i
  | None => None
  end.

(** Structural equality of floats. *)
Definition sf_same (a b : spec_float) : bool :=
  match a, b with
  | S754_zero s1, S754_zero s2 => Bool.eqb s1 s2
  | S754_infinity s1, S754_infinity s2 => Bool.eqb s1 s2
  | S754_nan, S754_nan => true
  | S754_finite s1 m1 e1, S754_finite s2 m2 e2 =>
      Bool.eqb s1 s2 && Pos.eqb m1 m2 && Z.eqb e1 e2
  | _, _ => false
  end.

(** The [float] square of each of the [n] integers from [c] on is the
    [float] of its integer square. *)
Fixpoint squares_exact_from (n : nat) (c : Z) : bool :=
  match n with
  | O => true
  | S n' =>
      sf_same (F32.mul (int_to_float c) (int_to_float c)) (int_to_float (c * c))
      && squares_exact_from n' (c + 1)
  end.

(** A normal with its orientation reversed. *)
Definition flip_normal (n : PointNT.t) : PointNT.t :=
  PointNT.mk (SFopp (PointNT.normal_x n)) (SFopp (PointNT.normal_y n))
             (SFopp (PointNT.normal_z n)).

(** The argument of the last call of a run that [sel] selects. *)
Definition last_of {A} (sel : call -> option A) (cs : list call) : option A :=
  fold_left (fun acc c => match sel c with Some a => Some a | None => acc end)
            cs None.

Definition sel_angular (c : call) : option float :=
  match c with SetAngularThreshold a => Some a | _ => None end.

Definition sel_distance (c : call) : option float :=
  match c with SetDistanceThreshold d => Some d | _ => None end.

Definition sel_color (c : call) : option float :=
  match c with SetColorThreshold d => Some d | _ => None end.

Definition sel_normals (c : call) : option (option PointCloudN) :=
  match c with SetInputNormals n => Some n | _ => None end.

(** A second cloud and normal sequence that agree with the sample ones at
    the indices 0 and 1 only. *)
Definition other_cloud : PointCloud := [cell_a; cell_b; cell_nan; cell_b].
Definition other_normals : PointCloudN := [up; up].

(** One of the three components is NaN. *)
Definition has_nan_component (n : PointNT.t) : bool :=
  is_nan (PointNT.normal_x n) || is_nan (PointNT.normal_y n)
  || is_nan (PointNT.normal_z n).

(** A normal that could not be estimated, and a comparator whose normal
    sequence holds it at index 1. *)
Definition normal_nan : PointNT.t := PointNT.mk S754_nan S754_nan S754_nan.

Definition nan_normal_comparator : Comparator :=
  setInputNormals (Some [up; normal_nan; up]) sample_comparator.

(** ** A cosine that does not increase over [0, pi]

    What the C library's cosine is expected to satisfy on the float angles
    from 0 to pi (rounded to [float]): a larger angle never gets a larger
    cosine. *)
Definition cosf_non_increasing (L : Libm) : Prop :=
  forall x y : float,
    F32.leb F32.zero x = true -> F32.ltb x y = true ->
    F32.leb y pi_float = true ->
    F32.leb (@cosf L y) (@cosf L x) = true.

(** A table-driven cosine, an instance of [Libm] whose cosine provably
    does not increase: the cosine of the last of the breakpoints [k * pi / 8]
    that is not above the angle (1 below the first one). *)
Fixpoint stair (tbl : list (float * float)) (cur x : float) : float :=
  match tbl with
  | [] => cur
  | (t, v) :: rest => if SFleb t x then stair rest v x else cur
  end.

Definition cos_breakpoints : list float :=
  map (fun k => double_to_float
                  (F64.div (F64.mul (int_to_double k) pi_double) (int_to_double 8)))
      [1; 2; 3; 4; 5; 6; 7; 8].

Definition cos_table : list (float * float) :=
  map (fun t => (t, sample_cosf t)) cos_breakpoints.

Definition table_cosf (x : float) : float := stair cos_table F32.one x.

Definition table_libm : Libm := {| cosf := table_cosf; acosf := sample_acosf |}.

(** The values of a table never go up, starting from [cur]. *)
Fixpoint decreasing_from (cur : float) (tbl : list (float * float)) : bool :=
  match tbl with
  | [] => true
  | (_, v) :: rest => SFleb v cur && decreasing_from v rest
  end.

(** * Verification *)

(** ** Literals *)

Example double_lit_0_02 :
  double_lit 2 100 = S754_finite false 5764607523034235 (-58).
Proof. reflexivity. Qed.

Example float_lit_0_02 :
  float_lit 2 100 = S754_finite false 10737418 (-29).
Proof. reflexivity. Qed.

Example float_lit_50 :
  float_lit 50 1 = S754_finite false 13107200 (-18) /\
  int_to_float 50 = float_lit 50 1.
Proof. split; reflexivity. Qed.

Example f32_one : int_to_float 1 = F32.one.
Proof. reflexivity. Qed.

(** ** Facts about the floating-point operations *)

Section FloatFacts.
Variables prec emax : Z.

Lemma SFmul_comm (a b : spec_float) :
  SFmul prec emax a b = SFmul prec emax b a.
Proof.
  destruct a as [sa|sa| |sa ma ea], b as [sb|sb| |sb mb eb]; simpl;
    rewrite ?(xorb_comm sa sb); try reflexivity.
  now rewrite (Pos.mul_comm ma mb), (Z.add_comm ea eb).
Qed.

Lemma SFadd_comm (a b : spec_float) :
  SFadd prec emax a b = SFadd prec emax b a.
Proof.
  destruct a as [sa|sa| |sa ma ea], b as [sb|sb| |sb mb eb]; simpl;
    try reflexivity; try (now destruct sa, sb).
  now rewrite (Z.min_comm ea eb), Z.add_comm.
Qed.

(** The sign given to a rounding only shows in the sign of its result. *)
Lemma binary_round_aux_abs (s1 s2 : bool) (m e : Z) (l : location) :
  SFabs (binary_round_aux prec emax s1 m e l) =
  SFabs (binary_round_aux prec emax s2 m e l).
Proof.
  unfold binary_round_aux.
  destruct (shr_fexp prec emax m e l) as [mrs' e'].
  destruct (shr_fexp prec emax _ e' loc_Exact) as [mrs'' e''].
  destruct (shr_m mrs''); try reflexivity.
  now destruct (e'' <=? emax - prec).
Qed.

Lemma binary_round_abs (s1 s2 : bool) (m : positive) (e : Z) :
  SFabs (binary_round prec emax s1 m e) =
  SFabs (binary_round prec emax s2 m e).
Proof.
  unfold binary_round.
  destruct (shl_align m e _) as [mz ez].
  apply binary_round_aux_abs.
Qed.

Lemma binary_normalize_opp_abs (m e : Z) (sz : bool) :
  SFabs (binary_normalize prec emax (- m) e sz) =
  SFabs (binary_normalize prec emax m e sz).
Proof.
  destruct m; simpl; try reflexivity; apply binary_round_abs.
Qed.

(** Swapping the operands of a subtraction only changes the sign. *)
Lemma SFsub_swap_abs (a b : spec_float) :
  SFabs (SFsub prec emax a b) = SFabs (SFsub prec emax b a).
Proof.
  destruct a as [sa|sa| |sa ma ea], b as [sb|sb| |sb mb eb]; simpl;
    try reflexivity; try (now destruct sa, sb).
  rewrite (Z.min_comm eb ea).
  rewrite <- binary_normalize_opp_abs.
  f_equal. f_equal. lia.
Qed.

(** A square does not depend on the sign of its operand. *)
Lemma SFmul_square_abs (a b : spec_float) :
  SFabs a = SFabs b -> SFmul prec emax a a = SFmul prec emax b b.
Proof.
  destruct a as [sa|sa| |sa ma ea], b as [sb|sb| |sb mb eb]; simpl;
    intros H; try discriminate; rewrite ?xorb_nilpotent; try reflexivity.
  now inversion H.
Qed.
End FloatFacts.

Lemma float_to_double_abs (a b : float) :
  SFabs a = SFabs b -> SFabs (float_to_double a) = SFabs (float_to_double b).
Proof.
  destruct a as [sa|sa| |sa ma ea], b as [sb|sb| |sb mb eb]; simpl;
    intros H; try discriminate; try reflexivity.
  inversion H; subst. apply binary_round_abs.
Qed.

(** *** The order of [SFcompare] *)

Lemma not_negative_ltb_zero (f : spec_float) (s : bool) :
  not_negative f = true -> SFltb f (S754_zero s) = false.
Proof.
  destruct f as [sf|sf| |sf mf ef]; simpl; try reflexivity;
    destruct sf; simpl; intros H; try discriminate; reflexivity.
Qed.

Lemma binary_round_aux_not_negative (prec emax m e : Z) (l : location) :
  not_negative (binary_round_aux prec emax false m e l) = true.
Proof.
  unfold binary_round_aux.
  destruct (shr_fexp prec emax m e l) as [mrs' e'].
  destruct (shr_fexp prec emax _ e' loc_Exact) as [mrs'' e''].
  destruct (shr_m mrs''); try reflexivity.
  now destruct (e'' <=? emax - prec).
Qed.

Lemma binary_round_not_negative (prec emax : Z) (m : positive) (e : Z) :
  not_negative (binary_round prec emax false m e) = true.
Proof.
  unfold binary_round.
  destruct (shl_align m e _) as [mz ez].
  apply binary_round_aux_not_negative.
Qed.

Lemma SFsqrt_not_negative (prec emax : Z) (f : spec_float) :
  not_negative (SFsqrt prec emax f) = true.
Proof.
  destruct f as [sf|sf| |sf mf ef]; simpl; try reflexivity.
  - now destruct sf.
  - destruct sf; [reflexivity|].
    destruct (SFsqrt_core_binary prec emax (Z.pos mf) ef) as [[mz ez] lz].
    apply binary_round_aux_not_negative.
Qed.

Lemma int_to_float_not_negative (n : Z) :
  0 <= n -> not_negative (int_to_float n) = true.
Proof.
  intros Hn. unfold int_to_float.
  destruct n as [|p|p]; simpl; try reflexivity; [|lia].
  apply binary_round_not_negative.
Qed.

(** [c2 <= c1 < d] gives [c2 < d]. *)
Lemma SFleb_ltb_trans (c2 c1 d : spec_float) :
  SFleb c2 c1 = true -> SFltb c1 d = true -> SFltb c2 d = true.
Proof.
  unfold SFleb, SFltb.
  destruct c2 as [s2|s2| |s2 m2 e2], c1 as [s1|s1| |s1 m1 e1],
           d as [s|s| |s m e]; simpl;
    try discriminate; try reflexivity;
    try (destruct s2; simpl; try discriminate; try reflexivity);
    try (destruct s1; simpl; try discriminate; try reflexivity);
    try (destruct s; simpl; try discriminate; try reflexivity).
  all: change (Pos.compare_cont Eq) with Pos.compare.
  all: destruct (Z.compare_spec e2 e1); destruct (Z.compare_spec e1 e);
    destruct (Z.compare_spec e2 e); try lia;
    try discriminate; try reflexivity; subst;
    destruct (Pos.compare_spec m2 m1); destruct (Pos.compare_spec m1 m);
    destruct (Pos.compare_spec m2 m); simpl; try lia;
    try discriminate; try reflexivity.
Qed.

(** *** [int] arithmetic on colour channels does not wrap *)

Lemma chan_range (c : byte) : 0 <= chan c <= 255.
Proof.
  unfold chan. pose proof (Byte.to_N_bounded c). lia.
Qed.

Lemma wrap_int_small (z : Z) : - 2 ^ 31 <= z < 2 ^ 31 -> wrap_int z = z.
Proof.
  intros H. unfold wrap_int.
  rewrite Z.mod_small; lia.
Qed.

Lemma int_sum_sq_exact (r1 g1 b1 r2 g2 b2 : Z) :
  0 <= r1 <= 255 -> 0 <= g1 <= 255 -> 0 <= b1 <= 255 ->
  0 <= r2 <= 255 -> 0 <= g2 <= 255 -> 0 <= b2 <= 255 ->
  let dr := int_sub r1 r2 in
  let dg := int_sub g1 g2 in
  let db := int_sub b1 b2 in
  int_add (int_add (int_mul dr dr) (int_mul dg dg)) (int_mul db db)
  = sum_sq r1 g1 b1 r2 g2 b2 /\
  0 <= sum_sq r1 g1 b1 r2 g2 b2 <= 195075.
Proof.
  intros Hr1 Hg1 Hb1 Hr2 Hg2 Hb2. cbv zeta.
  unfold int_sub, int_add, int_mul, sum_sq.
  assert (Hsq : forall a b, 0 <= a <= 255 -> 0 <= b <= 255 ->
                 0 <= (a - b) * (a - b) <= 65025).
  { intros a b Ha Hb.
    assert (Hp : 0 <= (255 - (a - b)) * (255 + (a - b)))
      by (apply Z.mul_nonneg_nonneg; lia).
    pose proof (Z.square_nonneg (a - b)). lia. }
  pose proof (Hsq r1 r2 Hr1 Hr2). pose proof (Hsq g1 g2 Hg1 Hg2).
  pose proof (Hsq b1 b2 Hb1 Hb2).
  assert (Hd : forall a b, 0 <= a <= 255 -> 0 <= b <= 255 ->
                wrap_int (a - b) = a - b) by (intros; apply wrap_int_small; lia).
  rewrite !Hd by assumption.
  assert (Hw : forall v, 0 <= v <= 195075 -> wrap_int v = v)
    by (intros; apply wrap_int_small; lia).
  rewrite !(Hw ((_ - _) * (_ - _))) by lia.
  rewrite (Hw (_ * _ + _ * _)) by lia.
  rewrite Hw by lia.
  lia.
Qed.

(** *** Widening a [float] to [double] is exact *)

Lemma digits2_pos_iter_xO (m k : positive) :
  digits2_pos (Pos.iter xO m k) = (digits2_pos m + k)%positive.
Proof.
  induction k as [|k IH] using Pos.peano_ind.
  - simpl. now rewrite Pos.add_1_r.
  - rewrite Pos.iter_succ. simpl. rewrite IH. lia.
Qed.

(** A finite [float] widens to the same sign and value, with the mantissa
    shifted to 53 bits. *)
Lemma float_to_double_finite (s : bool) (m : positive) (e : Z) :
  bounded F32.prec F32.emax m e = true ->
  float_to_double (S754_finite s m e) =
  S754_finite s (Pos.iter xO m (Z.to_pos (53 - Z.pos (digits2_pos m))))
                (e - (53 - Z.pos (digits2_pos m))).
Proof.
  unfold bounded, canonical_mantissa, fexp, emin, F32.prec, F32.emax.
  intros Hb. apply andb_prop in Hb. destruct Hb as [Hc He].
  apply Z.eqb_eq in Hc. apply Z.leb_le in He.
  set (d := Z.pos (digits2_pos m)) in *.
  assert (Hd : 0 < d) by (unfold d; lia).
  assert (Hd24 : d <= 24) by lia.
  assert (He149 : -149 <= e) by lia.
  unfold float_to_double, binary_round, F64.prec, F64.emax.
  fold d.
  assert (Hf : fexp 53 1024 (d + e) = d + e - 53)
    by (unfold fexp, emin; lia).
  rewrite Hf. unfold shl_align.
  replace (d + e - 53 - e) with (Z.neg (Z.to_pos (53 - d)))
    by (rewrite <- Pos2Z.opp_pos, Z2Pos.id; lia).
  set (k := Z.to_pos (53 - d)).
  assert (Hk : Z.pos k = 53 - d) by (unfold k; rewrite Z2Pos.id; lia).
  unfold binary_round_aux, shr_fexp. cbn [Zdigits2 shr_record_of_loc].
  rewrite digits2_pos_iter_xO. fold d.
  replace (Z.pos (digits2_pos m + k)) with 53 by (unfold d in *; lia).
  assert (Hf2 : fexp 53 1024 (53 + (d + e - 53)) - (d + e - 53) = 0)
    by (unfold fexp, emin; lia).
  rewrite Hf2. cbn [shr shr_m loc_of_shr_record round_nearest_even Zdigits2].
  rewrite digits2_pos_iter_xO.
  replace (Z.pos (digits2_pos m + k)) with 53 by (unfold d in *; lia).
  rewrite Hf2. cbn [shr shr_m].
  replace (d + e - 53 <=? 1024 - 53) with true by (symmetry; apply Z.leb_le; lia).
  f_equal. lia.
Qed.

(** Widening keeps the sign of a comparison with zero. *)
Lemma float_to_double_pos (f : float) :
  F32.valid f = true -> F32.ltb F32.zero f = true ->
  F64.ltb F64.zero (float_to_double f) = true.
Proof.
  destruct f as [sf|sf| |sf mf ef]; try discriminate.
  - intros _ H. exact H.
  - intros Hv H. simpl in Hv.
    rewrite (float_to_double_finite _ _ _ Hv).
    destruct sf; [discriminate|reflexivity].
Qed.

(** *** Converting a small [int] to [float] is exact *)

Lemma iter_xO_pow (p k : positive) :
  Z.pos (Pos.iter xO p k) = Z.pos p * 2 ^ Z.pos k.
Proof.
  induction k as [|k IH] using Pos.peano_ind.
  - simpl. lia.
  - rewrite Pos.iter_succ, Pos2Z.inj_xO, IH, Pos2Z.inj_succ, Z.pow_succ_r; lia.
Qed.

(** A positive [int] of at most 24 bits converts to a [float] [m * 2^-k]
    with [m = n * 2^k]: the value is [n]. *)
Lemma int_to_float_exact (n : positive) :
  Z.pos (digits2_pos n) <= 24 ->
  exists (m : positive) (k : Z),
    int_to_float (Z.pos n) = S754_finite false m (- k) /\
    0 <= k /\ Z.pos m = Z.pos n * 2 ^ k.
Proof.
  intros Hd.
  unfold int_to_float, binary_normalize, binary_round, F32.prec, F32.emax.
  set (d := Z.pos (digits2_pos n)) in *.
  assert (Hd0 : 0 < d) by (unfold d; lia).
  assert (Hf : fexp 24 128 (d + 0) = d - 24) by (unfold fexp, emin; lia).
  rewrite Hf. unfold shl_align.
  destruct (Z.eq_dec d 24) as [E|E].
  - (* 24 bits: no shift *)
    replace (d - 24 - 0) with 0 by lia.
    exists n, 0. split; [|split; lia].
    unfold binary_round_aux, shr_fexp. cbn [Zdigits2 shr_record_of_loc].
    fold d. rewrite E.
    change (fexp 24 128 (24 + 0) - 0) with 0.
    cbn [shr shr_m loc_of_shr_record round_nearest_even Zdigits2].
    fold d. rewrite E.
    change (fexp 24 128 (24 + 0) - 0) with 0.
    cbn [shr shr_m]. reflexivity.
  - (* fewer bits: shift left to 24 *)
    set (k := Z.to_pos (24 - d)).
    assert (Hk : Z.pos k = 24 - d) by (unfold k; rewrite Z2Pos.id; lia).
    replace (d - 24 - 0) with (Z.neg k) by (rewrite <- Pos2Z.opp_pos; lia).
    exists (Pos.iter xO n k), (Z.pos k).
    split; [|split; [lia | apply iter_xO_pow]].
    unfold binary_round_aux, shr_fexp. cbn [Zdigits2 shr_record_of_loc].
    rewrite digits2_pos_iter_xO. rewrite Pos2Z.inj_add. fold d. rewrite Hk.
    replace (d + (24 - d)) with 24 by lia.
    assert (Hf2 : fexp 24 128 (24 + (d - 24)) - (d - 24) = 0)
      by (unfold fexp, emin; lia).
    rewrite Hf2. cbn [shr shr_m loc_of_shr_record round_nearest_even Zdigits2].
    rewrite digits2_pos_iter_xO. rewrite Pos2Z.inj_add. fold d. rewrite Hk.
    replace (d + (24 - d)) with 24 by lia.
    rewrite Hf2. cbn [shr shr_m].
    replace (d - 24 <=? 128 - 24) with true by (symmetry; apply Z.leb_le; lia).
    f_equal. lia.
Qed.

Lemma digits2_pos_bound (n : positive) (k : positive) :
  Z.pos n < 2 ^ Z.pos k -> Z.pos (digits2_pos n) <= Z.pos k.
Proof.
  revert k. induction n as [n IH|n IH|]; intros k Hn; simpl.
  - destruct (Pos.eq_dec k 1) as [->|Hk]; [simpl in Hn; lia|].
    assert (Hk1 : Z.pos k = Z.succ (Z.pos (Pos.pred k)))
      by (rewrite <- Pos2Z.inj_succ, Pos.succ_pred; auto).
    rewrite Hk1, Z.pow_succ_r in Hn by lia.
    specialize (IH (Pos.pred k)). lia.
  - destruct (Pos.eq_dec k 1) as [->|Hk]; [simpl in Hn; lia|].
    assert (Hk1 : Z.pos k = Z.succ (Z.pos (Pos.pred k)))
      by (rewrite <- Pos2Z.inj_succ, Pos.succ_pred; auto).
    rewrite Hk1, Z.pow_succ_r in Hn by lia.
    specialize (IH (Pos.pred k)). lia.
  - lia.
Qed.

(** ** The comparison, unfolded *)

Lemma dist_of_euclidean (p q : PointT.t) : dist_of p q = euclidean_distance p q.
Proof. reflexivity. Qed.

(** The [int] arithmetic of [compare] computes the exact sum of squares. *)
Lemma color_dist_of_exact (p q : PointT.t) :
  color_dist_of p q = int_to_float (squared_color_distance p q) /\
  0 <= squared_color_distance p q <= 195075.
Proof.
  destruct (int_sum_sq_exact
              (chan (PointT.r p)) (chan (PointT.g p)) (chan (PointT.b p))
              (chan (PointT.r q)) (chan (PointT.g q)) (chan (PointT.b q)))
    as [Heq Hrange]; try apply chan_range.
  cbv zeta in Heq. unfold color_dist_of. rewrite Heq.
  unfold squared_color_distance, sum_sq in *. simpl.
  rewrite Z.add_0_r, Z.add_assoc. split; [reflexivity | lia].
Qed.

(** The colour distance [compare] computes is exactly the sum of squared
    channel differences: +0, or a [float] [m * 2^-k] of that value. *)
Lemma color_dist_of_value (p q : PointT.t) :
  (squared_color_distance p q = 0 /\ color_dist_of p q = S754_zero false) \/
  (exists (m : positive) (k : Z),
      color_dist_of p q = S754_finite false m (- k) /\
      0 <= k /\ Z.pos m = squared_color_distance p q * 2 ^ k).
Proof.
  destruct (color_dist_of_exact p q) as [-> Hrange].
  destruct (squared_color_distance p q) as [|n|n]; [left; split; reflexivity| |lia].
  right. apply int_to_float_exact.
  assert (Hn : Z.pos n < 2 ^ 18) by (change (2 ^ 18) with 262144; lia).
  pose proof (digits2_pos_bound n 18 Hn). lia.
Qed.

(** With the point sequence configured and both indices inside it, the
    call reads the normals only when the distance test passes. *)
Lemma compare_cloud (s : Comparator) (i j : Z) (cloud : PointCloud) (p1 p2 : PointT.t) :
  input_ s = Some cloud ->
  at_index cloud i = Some p1 -> at_index cloud j = Some p2 ->
  compare i j s =
  if distance_test s p1 p2 then
    match normals_ s with
    | Some ncloud =>
        match at_index ncloud i, at_index ncloud j with
        | Some n1, Some n2 =>
            Some (normal_test s n1 n2 && color_test s p1 p2, s)
        | _, _ => None
        end
    | None => None
    end
  else Some (false, s).
Proof.
  intros Hin H1 H2.
  unfold compare, bind, member, deref, index, ret.
  rewrite Hin, H1, H2.
  unfold distance_test, normal_test, color_test.
  change (euclidean_distance p1 p2) with (dist_of p1 p2).
  destruct (F64.ltb _ _); [|reflexivity].
  destruct (normals_ s) as [ncloud|]; [|reflexivity].
  destruct (at_index ncloud i) as [n1|]; [|reflexivity].
  destruct (at_index ncloud j) as [n2|]; [|reflexivity].
  destruct (color_dist_of_exact p1 p2) as [-> _].
  now destruct (F32.ltb (angular_threshold_ s) (dot n1 n2)).
Qed.

Lemma compare_in_bounds (s : Comparator) (i j : Z)
      (cloud : PointCloud) (ncloud : PointCloudN)
      (p1 p2 : PointT.t) (n1 n2 : PointNT.t) :
  input_ s = Some cloud -> normals_ s = Some ncloud ->
  at_index cloud i = Some p1 -> at_index cloud j = Some p2 ->
  at_index ncloud i = Some n1 -> at_index ncloud j = Some n2 ->
  compare i j s =
  Some (distance_test s p1 p2 && normal_test s n1 n2 && color_test s p1 p2, s).
Proof.
  intros Hin Hn H1 H2 H3 H4.
  rewrite (compare_cloud s i j cloud p1 p2 Hin H1 H2), Hn, H3, H4.
  now destruct (distance_test s p1 p2).
Qed.

(** What [in_bounds] gives. *)
Lemma in_bounds_inv (s : Comparator) (i j : Z) :
  in_bounds s i j = true ->
  exists cloud ncloud p1 p2 n1 n2,
    input_ s = Some cloud /\ normals_ s = Some ncloud /\
    at_index cloud i = Some p1 /\ at_index cloud j = Some p2 /\
    at_index ncloud i = Some n1 /\ at_index ncloud j = Some n2.
Proof.
  unfold in_bounds.
  destruct (input_ s) as [cloud|]; [|discriminate].
  destruct (normals_ s) as [ncloud|]; [|discriminate].
  destruct (at_index cloud i) as [p1|] eqn:H1; [|discriminate].
  destruct (at_index cloud j) as [p2|] eqn:H2; [|discriminate].
  destruct (at_index ncloud i) as [n1|] eqn:H3; [|discriminate].
  destruct (at_index ncloud j) as [n2|] eqn:H4; [|discriminate].
  intros _. exists cloud, ncloud, p1, p2, n1, n2. repeat split; assumption.
Qed.

(** Whatever a call returns, it returns the state it was given. *)
Lemma compare_frame (s s' : Comparator) (i j : Z) (b : bool) :
  compare i j s = Some (b, s') -> s' = s.
Proof.
  unfold compare, bind, member, deref, index, ret.
  destruct (input_ s) as [cloud|]; [|discriminate].
  destruct (at_index cloud i) as [p1|]; [|discriminate].
  destruct (at_index cloud j) as [p2|]; [|discriminate].
  destruct (F64.ltb _ _).
  - destruct (normals_ s) as [ncloud|]; [|discriminate].
    destruct (at_index ncloud i) as [n1|]; [|discriminate].
    destruct (at_index ncloud j) as [n2|]; [|discriminate].
    destruct (F32.ltb _ _); intros H; now inversion H.
  - intros H; now inversion H.
Qed.

(** ** C1: the three tests *)

(** C1. With the point and normal sequences configured and both indices in
    bounds, [compare] returns (leaving the object as it was) and the value
    is true iff all three hold: the Euclidean distance of the two points is
    less than the stored distance threshold, the dot product of the two
    normals exceeds the stored cosine, and the sum of squared colour
    channel differences is less than the stored colour threshold. *)
Theorem compare_true_iff_three_tests
        (s : Comparator) (i j : Z) (cloud : PointCloud) (ncloud : PointCloudN)
        (p1 p2 : PointT.t) (n1 n2 : PointNT.t) :
  input_ s = Some cloud -> normals_ s = Some ncloud ->
  at_index cloud i = Some p1 -> at_index cloud j = Some p2 ->
  at_index ncloud i = Some n1 -> at_index ncloud j = Some n2 ->
  exists b : bool,
    compare i j s = Some (b, s) /\
    (b = true <->
     F64.ltb (euclidean_distance p1 p2)
             (float_to_double (distance_threshold_ s)) = true /\
     F32.ltb (angular_threshold_ s) (dot n1 n2) = true /\
     F32.ltb (int_to_float (squared_color_distance p1 p2))
             (color_threshold_ s) = true).
Proof.
  intros Hin Hn H1 H2 H3 H4.
  eexists. split.
  - apply (compare_in_bounds s i j cloud ncloud p1 p2 n1 n2); assumption.
  - unfold distance_test, normal_test, color_test.
    rewrite !andb_true_iff. tauto.
Qed.

Lemma compare_true_iff_three_tests_witness :
  exists b : bool,
    compare 0 1 sample_comparator = Some (b, sample_comparator) /\
    (b = true <->
     F64.ltb (euclidean_distance cell_a cell_b)
             (float_to_double (distance_threshold_ sample_comparator)) = true /\
     F32.ltb (angular_threshold_ sample_comparator) (dot up up) = true /\
     F32.ltb (int_to_float (squared_color_distance cell_a cell_b))
             (color_threshold_ sample_comparator) = true).
Proof.
  apply (compare_true_iff_three_tests sample_comparator 0 1
           sample_cloud sample_normals cell_a cell_b up up); reflexivity.
Defined.

(** ** The scenario of the specification

    Cells at (0,0,0) and (0,0,0.01) with normals (0,0,1) and colours
    (100,100,100) and (105,100,100): a fresh object accepts the pair (its
    stored distance threshold is 0.02), and rejects it once the distance
    threshold has been configured to 0.02 (stored as its square). *)
Example scenario_fresh :
  result (compare 0 1 sample_comparator) = Some true.
Proof. reflexivity. Qed.

Example scenario_configured :
  result (compare 0 1 (setDistanceThreshold (float_lit 2 100) sample_comparator))
  = Some false.
Proof. reflexivity. Qed.

Example scenario_out_of_bounds :
  compare 0 3 sample_comparator = None /\ compare (-1) 0 sample_comparator = None.
Proof. split; reflexivity. Qed.

(** ** C2: the state after construction *)

(** C2 (as the code has it). Both constructors store their initialisers as
    they are written, without the transforms of the setters: the stored
    angular threshold is 0, the stored distance threshold is 0.02 rounded
    to [float], and the stored colour threshold is 50. *)
Theorem new_stores_untransformed_defaults (plane_coeff_d : option (list float)) :
  angular_threshold_ new = S754_zero false /\
  distance_threshold_ new = S754_finite false 10737418 (-29) /\
  distance_threshold_ new = float_lit 2 100 /\
  color_threshold_ new = int_to_float 50 /\
  angular_threshold_ (new_plane_coeff_d plane_coeff_d) = angular_threshold_ new /\
  distance_threshold_ (new_plane_coeff_d plane_coeff_d) = distance_threshold_ new /\
  color_threshold_ (new_plane_coeff_d plane_coeff_d) = color_threshold_ new /\
  getDistanceThreshold new = float_lit 2 100 /\
  getColorThreshold new = int_to_float 50.
Proof. repeat split; reflexivity. Qed.

(** C2 (as stated) fails: after construction the stored angular threshold
    is not 1, the stored distance threshold is not 0.0004 (neither the
    literal nor the square of 0.02), and the stored colour threshold is not
    2500. *)
Lemma new_does_not_store_transformed_defaults :
  F32.eqb (angular_threshold_ new) F32.one = false /\
  F32.eqb (distance_threshold_ new) (F32.mul (float_lit 2 100) (float_lit 2 100)) = false /\
  F32.eqb (distance_threshold_ new) (float_lit 4 10000) = false /\
  F32.eqb (color_threshold_ new) (int_to_float 2500) = false /\
  F32.eqb (color_threshold_ new) (F32.mul (int_to_float 50) (int_to_float 50)) = false.
Proof. repeat split; reflexivity. Qed.

(** ** C10: the constructor argument *)

(** C10. The constructor taking a plane-coefficient vector ignores it: the
    object it builds is the one the default constructor builds, with the
    plane-coefficient reference unset; a later [setPlaneCoeffD] installs
    one. *)
Theorem new_plane_coeff_d_ignores_argument
        (plane_coeff_d : option (list float)) (v : list float) (s : Comparator) :
  new_plane_coeff_d plane_coeff_d = new /\
  plane_coeff_d_ (new_plane_coeff_d plane_coeff_d) = None /\
  plane_coeff_d_ (setPlaneCoeffD plane_coeff_d s) = plane_coeff_d /\
  plane_coeff_d_ (setPlaneCoeffD_vector v s) = Some v.
Proof. repeat split; reflexivity. Qed.

(** ** C8: the call changes nothing *)

(** C8. [compare] never changes the object: a call at indices in bounds
    returns and leaves the state as it was, and after any call that
    returns, the three stored thresholds, the plane-coefficient reference,
    the point sequence and the normal sequence are what they were. *)
Theorem compare_leaves_state (s : Comparator) (i j : Z) :
  (in_bounds s i j = true -> exists b : bool, compare i j s = Some (b, s)) /\
  (forall (b : bool) (s' : Comparator),
      compare i j s = Some (b, s') ->
      angular_threshold_ s' = angular_threshold_ s /\
      distance_threshold_ s' = distance_threshold_ s /\
      color_threshold_ s' = color_threshold_ s /\
      plane_coeff_d_ s' = plane_coeff_d_ s /\
      input_ s' = input_ s /\
      normals_ s' = normals_ s).
Proof.
  split.
  - intros Hb.
    destruct (in_bounds_inv s i j Hb)
      as (cloud & ncloud & p1 & p2 & n1 & n2 & Hin & Hn & H1 & H2 & H3 & H4).
    eexists.
    apply (compare_in_bounds s i j cloud ncloud p1 p2 n1 n2); assumption.
  - intros b s' Hc. rewrite (compare_frame s s' i j b Hc).
    repeat split; reflexivity.
Qed.

Lemma compare_leaves_state_witness :
  exists b : bool, compare 0 1 sample_comparator = Some (b, sample_comparator).
Proof.
  apply (proj1 (compare_leaves_state sample_comparator 0 1)). reflexivity.
Defined.

(** ** C9: the plane coefficients are not consulted *)

Lemma compare_forget_plane (s : Comparator) (i j : Z) :
  result (compare i j (forget_plane s)) = result (compare i j s).
Proof.
  unfold compare, bind, member, deref, index, ret, forget_plane, setPlaneCoeffD.
  simpl.
  destruct (input_ s) as [cloud|]; [|reflexivity].
  destruct (at_index cloud i) as [p1|]; [|reflexivity].
  destruct (at_index cloud j) as [p2|]; [|reflexivity].
  destruct (F64.ltb _ _); [simpl|reflexivity].
  destruct (normals_ s) as [ncloud|]; [|reflexivity].
  destruct (at_index ncloud i) as [n1|]; [|reflexivity].
  destruct (at_index ncloud j) as [n2|]; [|reflexivity].
  now destruct (F32.ltb _ _).
Qed.

Lemma run_forget_plane `{Libm} (cs : list call) (s : Comparator) :
  forget_plane (run cs s) = run (without_plane_calls cs) (forget_plane s).
Proof.
  revert s. induction cs as [|c cs IH]; intros s; [reflexivity|].
  unfold run in *. simpl fold_left. rewrite IH.
  destruct c; reflexivity.
Qed.

(** C9. Two runs of configuration calls that differ only in their
    [setPlaneCoeffD] calls (which values they pass, or whether there are
    any) give the same result of [compare] at every index pair. *)
Theorem compare_ignores_plane_coeff_d
        `{Libm} (cs1 cs2 : list call) (s : Comparator) (i j : Z) :
  without_plane_calls cs1 = without_plane_calls cs2 ->
  result (compare i j (run cs1 s)) = result (compare i j (run cs2 s)).
Proof.
  intros Hcs.
  rewrite <- (compare_forget_plane (run cs1 s)).
  rewrite <- (compare_forget_plane (run cs2 s)).
  now rewrite !run_forget_plane, Hcs.
Qed.

Lemma compare_ignores_plane_coeff_d_witness :
  result (compare 0 1
            (@run sample_libm
                  [SetInputCloud (Some sample_cloud);
                   SetPlaneCoeffD_vector [int_to_float 1; int_to_float 2; int_to_float 3];
                   SetInputNormals (Some sample_normals)] new))
  = result (compare 0 1
              (@run sample_libm
                    [SetInputCloud (Some sample_cloud);
                     SetInputNormals (Some sample_normals)] new)).
Proof.
  apply (@compare_ignores_plane_coeff_d sample_libm). reflexivity.
Defined.

(** ** C4: symmetry *)

Lemma square_diff_swap (a b : float) :
  F64.mul (float_to_double (F32.sub a b)) (float_to_double (F32.sub a b)) =
  F64.mul (float_to_double (F32.sub b a)) (float_to_double (F32.sub b a)).
Proof.
  apply SFmul_square_abs, float_to_double_abs, SFsub_swap_abs.
Qed.

Lemma dist_of_sym (p q : PointT.t) : dist_of p q = dist_of q p.
Proof.
  unfold dist_of.
  now rewrite (square_diff_swap (PointT.x p)), (square_diff_swap (PointT.y p)),
    (square_diff_swap (PointT.z p)).
Qed.

Lemma squared_color_distance_sym (p q : PointT.t) :
  squared_color_distance p q = squared_color_distance q p.
Proof. unfold squared_color_distance. simpl. lia. Qed.

Lemma color_dist_of_sym (p q : PointT.t) : color_dist_of p q = color_dist_of q p.
Proof.
  destruct (color_dist_of_exact p q) as [-> _].
  destruct (color_dist_of_exact q p) as [-> _].
  now rewrite squared_color_distance_sym.
Qed.

Lemma dot_sym (a b : PointNT.t) : dot a b = dot b a.
Proof.
  unfold dot, F32.mul.
  now rewrite (SFmul_comm _ _ (PointNT.normal_x a)),
    (SFmul_comm _ _ (PointNT.normal_y a)), (SFmul_comm _ _ (PointNT.normal_z a)).
Qed.

(** C4. For every configuration and every pair of indices, [compare (i, j)]
    and [compare (j, i)] behave alike: the distance, the dot product and
    the squared colour difference are each symmetric in their arguments. *)
Theorem compare_symmetric (s : Comparator) (i j : Z) :
  compare i j s = compare j i s.
Proof.
  unfold compare, bind, member, deref, index, ret.
  destruct (input_ s) as [cloud|]; [|reflexivity].
  destruct (at_index cloud i) as [p1|], (at_index cloud j) as [p2|];
    try reflexivity.
  rewrite (dist_of_sym p2 p1), (color_dist_of_sym p2 p1).
  destruct (F64.ltb _ _); [|reflexivity].
  destruct (normals_ s) as [ncloud|]; [|reflexivity].
  destruct (at_index ncloud i) as [n1|], (at_index ncloud j) as [n2|];
    try reflexivity.
  now rewrite (dot_sym n2 n1).
Qed.

(** ** C6: zero thresholds *)

Lemma distance_test_zero (sgn : bool) (s : Comparator) (p q : PointT.t) :
  distance_test (setDistanceThreshold (S754_zero sgn) s) p q = false.
Proof.
  unfold distance_test, euclidean_distance. simpl distance_threshold_.
  replace (float_to_double (F32.mul (S754_zero sgn) (S754_zero sgn)))
    with (S754_zero false) by now destruct sgn.
  apply not_negative_ltb_zero, SFsqrt_not_negative.
Qed.

Lemma color_test_zero (sgn : bool) (s : Comparator) (p q : PointT.t) :
  color_test (setColorThreshold (S754_zero sgn) s) p q = false.
Proof.
  unfold color_test. simpl color_threshold_.
  replace (F32.mul (S754_zero sgn) (S754_zero sgn))
    with (S754_zero false) by now destruct sgn.
  apply not_negative_ltb_zero, int_to_float_not_negative.
  apply (color_dist_of_exact p q).
Qed.

(** C6. After [setDistanceThreshold (0)], [compare] returns false for every
    pair of indices in bounds (so for every pair whose points differ in
    position, whatever their normals and colours); after
    [setColorThreshold (0)], it returns false for every pair of indices in
    bounds (so for every pair whose points differ in a colour channel,
    whatever their geometry).  The zero may have either sign. *)
Theorem zero_threshold_rejects (sgn : bool) (s : Comparator) (i j : Z) :
  in_bounds s i j = true ->
  result (compare i j (setDistanceThreshold (S754_zero sgn) s)) = Some false /\
  result (compare i j (setColorThreshold (S754_zero sgn) s)) = Some false.
Proof.
  intros Hb.
  destruct (in_bounds_inv s i j Hb)
    as (cloud & ncloud & p1 & p2 & n1 & n2 & Hin & Hn & H1 & H2 & H3 & H4).
  split.
  - rewrite (compare_in_bounds _ i j cloud ncloud p1 p2 n1 n2) by assumption.
    now rewrite distance_test_zero.
  - rewrite (compare_in_bounds _ i j cloud ncloud p1 p2 n1 n2) by assumption.
    now rewrite color_test_zero, !andb_false_r.
Qed.

Lemma zero_threshold_rejects_witness :
  result (compare 0 1 (setDistanceThreshold F32.zero sample_comparator)) = Some false /\
  result (compare 0 1 (setColorThreshold F32.zero sample_comparator)) = Some false.
Proof.
  apply (zero_threshold_rejects false sample_comparator 0 1). reflexivity.
Defined.

(** ** C3: identical cells *)

Lemma SFsub_diag (prec emax : Z) (f : spec_float) :
  is_finite f = true -> SFsub prec emax f f = S754_zero false.
Proof.
  destruct f as [sf|sf| |sf mf ef]; simpl; try discriminate; intros _.
  - now destruct sf.
  - now rewrite Z.sub_diag.
Qed.

Lemma squared_color_distance_diag (p : PointT.t) : squared_color_distance p p = 0.
Proof. unfold squared_color_distance. simpl. lia. Qed.

(** The distance of a cell with finite coordinates to itself is +0. *)
Lemma euclidean_distance_diag (p : PointT.t) :
  is_finite (PointT.x p) = true -> is_finite (PointT.y p) = true ->
  is_finite (PointT.z p) = true ->
  euclidean_distance p p = S754_zero false.
Proof.
  intros Hx Hy Hz. unfold euclidean_distance, F32.sub. simpl fold_left.
  now rewrite (SFsub_diag _ _ _ Hx), (SFsub_diag _ _ _ Hy), (SFsub_diag _ _ _ Hz).
Qed.

(** C3 (as the code has it). For two indices in bounds whose points have
    the same position, with finite coordinates, the same normal and the
    same colour, [compare] returns true when the stored distance threshold
    is positive, the dot product of the normal with itself exceeds the
    stored cosine, and the stored colour threshold is positive. *)
Theorem identical_cells_accepted
        (s : Comparator) (i j : Z) (cloud : PointCloud) (ncloud : PointCloudN)
        (p : PointT.t) (n : PointNT.t) :
  input_ s = Some cloud -> normals_ s = Some ncloud ->
  at_index cloud i = Some p -> at_index cloud j = Some p ->
  at_index ncloud i = Some n -> at_index ncloud j = Some n ->
  is_finite (PointT.x p) = true -> is_finite (PointT.y p) = true ->
  is_finite (PointT.z p) = true ->
  F32.valid (distance_threshold_ s) = true ->
  F32.ltb F32.zero (distance_threshold_ s) = true ->
  F32.ltb (angular_threshold_ s) (dot n n) = true ->
  F32.ltb F32.zero (color_threshold_ s) = true ->
  compare i j s = Some (true, s).
Proof.
  intros Hin Hn H1 H2 H3 H4 Hx Hy Hz Hv Hd Ha Hc.
  rewrite (compare_in_bounds s i j cloud ncloud p p n n) by assumption.
  unfold distance_test, normal_test, color_test.
  rewrite (euclidean_distance_diag p Hx Hy Hz), squared_color_distance_diag, Ha.
  change (int_to_float 0) with F32.zero. rewrite Hc.
  change (S754_zero false) with F64.zero.
  now rewrite (float_to_double_pos _ Hv Hd).
Qed.

Lemma identical_cells_accepted_witness :
  compare 0 2 sample_comparator = Some (true, sample_comparator).
Proof.
  apply (identical_cells_accepted sample_comparator 0 2
           sample_cloud sample_normals cell_a up); reflexivity.
Defined.

(** C3 (as stated) fails for thresholds that are zero: with the distance
    threshold configured to 0, or the colour threshold configured to 0, two
    cells with identical position, normal and colour are rejected (and so
    is, under the thresholds of a fresh object, a cell with NaN coordinates
    compared with an identical one or with itself). *)
Lemma identical_cells_rejected_at_zero_threshold :
  at_index sample_cloud 0 = Some cell_a /\
  at_index sample_cloud 2 = Some cell_a /\
  at_index sample_normals 0 = Some up /\
  at_index sample_normals 2 = Some up /\
  result (compare 0 2 (setDistanceThreshold F32.zero sample_comparator)) = Some false /\
  result (compare 0 2 (setColorThreshold F32.zero sample_comparator)) = Some false /\
  result (compare 0 0 (setDistanceThreshold F32.zero sample_comparator)) = Some false /\
  result (compare 0 1 nan_comparator) = Some false /\
  result (compare 0 0 nan_comparator) = Some false.
Proof. repeat split; reflexivity. Qed.

(** ** The sample C library *)

(** The sample cosine is faithful near zero (it returns 1 there). *)
Lemma sample_libm_faithful_near_zero : cosf_faithful_near_zero sample_libm.
Proof.
  intros t [<-|[<-|[<-|[]]]]; left; reflexivity.
Qed.

Example sample_cosf_values :
  sample_cosf F32.zero = F32.one /\
  sample_cosf F32.tiny1 = F32.one /\
  sample_cosf (float_lit 1 2) = float_lit 877582561890 1000000000000 /\
  sample_acosf (sample_cosf (float_lit 1 2)) = float_lit 1 2 /\
  sample_cosf pi_float = int_to_float (-1).
Proof. repeat split; vm_compute; reflexivity. Qed.

(** ** C5: the angular threshold *)

Lemma compare_true_inv (s : Comparator) (i j : Z) :
  result (compare i j s) = Some true ->
  exists cloud ncloud p1 p2 n1 n2,
    input_ s = Some cloud /\ normals_ s = Some ncloud /\
    at_index cloud i = Some p1 /\ at_index cloud j = Some p2 /\
    at_index ncloud i = Some n1 /\ at_index ncloud j = Some n2 /\
    distance_test s p1 p2 = true /\ normal_test s n1 n2 = true /\
    color_test s p1 p2 = true.
Proof.
  destruct (input_ s) as [cloud|] eqn:Hin;
    [|unfold compare, bind, member, deref; rewrite Hin; discriminate].
  destruct (at_index cloud i) as [p1|] eqn:H1;
    [|unfold compare, bind, member, deref, index; rewrite Hin, H1; discriminate].
  destruct (at_index cloud j) as [p2|] eqn:H2;
    [|unfold compare, bind, member, deref, index; rewrite Hin, H1, H2; discriminate].
  rewrite (compare_cloud s i j cloud p1 p2 Hin H1 H2).
  destruct (distance_test s p1 p2) eqn:Hdt; [|discriminate].
  destruct (normals_ s) as [ncloud|] eqn:Hn; [|discriminate].
  destruct (at_index ncloud i) as [n1|] eqn:H3; [|discriminate].
  destruct (at_index ncloud j) as [n2|] eqn:H4; [|discriminate].
  simpl. intros H.
  assert (Hb : normal_test s n1 n2 && color_test s p1 p2 = true) by congruence.
  clear H.
  apply andb_prop in Hb. destruct Hb as [Hnt Hct].
  exists cloud, ncloud, p1, p2, n1, n2. repeat split; assumption.
Qed.

(** With a stored cosine that is not greater, every accepted pair stays
    accepted. *)
Lemma accepted_under_smaller_cosine
      `{Libm} (a1 a2 : float) (s : Comparator) (i j : Z) :
  F32.leb (angular_threshold_ (setAngularThreshold a2 s))
          (angular_threshold_ (setAngularThreshold a1 s)) = true ->
  result (compare i j (setAngularThreshold a1 s)) = Some true ->
  result (compare i j (setAngularThreshold a2 s)) = Some true.
Proof.
  intros Hle Hacc.
  destruct (compare_true_inv _ i j Hacc)
    as (cloud & ncloud & p1 & p2 & n1 & n2 &
        Hin & Hn & H1 & H2 & H3 & H4 & Hd & Ha & Hc).
  rewrite (compare_in_bounds _ i j cloud ncloud p1 p2 n1 n2) by assumption.
  unfold distance_test, normal_test, color_test in *.
  cbn [setAngularThreshold angular_threshold_ distance_threshold_
       color_threshold_] in *.
  unfold F32.ltb, F32.leb in *.
  rewrite Hd, Hc, (SFleb_ltb_trans _ _ _ Hle Ha). reflexivity.
Qed.

(** *** The table-driven cosine does not increase *)

Lemma SFltb_leb (x y : spec_float) : SFltb x y = true -> SFleb x y = true.
Proof.
  unfold SFltb, SFleb. destruct (SFcompare x y) as [[]|]; try discriminate.
  reflexivity.
Qed.

Lemma SFleb_trans (a b c : spec_float) :
  SFleb a b = true -> SFleb b c = true -> SFleb a c = true.
Proof.
  unfold SFleb.
  destruct a as [sa|sa| |sa ma ea], b as [sb|sb| |sb mb eb],
           c as [sc|sc| |sc mc ec]; simpl;
    try discriminate; try reflexivity;
    try (destruct sa; simpl; try discriminate; try reflexivity);
    try (destruct sb; simpl; try discriminate; try reflexivity);
    try (destruct sc; simpl; try discriminate; try reflexivity).
  all: change (Pos.compare_cont Eq) with Pos.compare.
  all: destruct (Z.compare_spec ea eb); destruct (Z.compare_spec eb ec);
    destruct (Z.compare_spec ea ec); try lia;
    try discriminate; try reflexivity; subst;
    destruct (Pos.compare_spec ma mb); destruct (Pos.compare_spec mb mc);
    destruct (Pos.compare_spec ma mc); simpl; try lia;
    try discriminate; try reflexivity.
Qed.

(** What is below something is a number, and so not above itself. *)
Lemma SFleb_refl_of (v c : spec_float) : SFleb v c = true -> SFleb v v = true.
Proof.
  unfold SFleb. destruct v as [s|s| |s m e]; simpl; try reflexivity.
  - now destruct s.
  - destruct c; discriminate.
  - intros _. change (Pos.compare_cont Eq) with Pos.compare.
    rewrite Z.compare_refl, Pos.compare_refl. now destruct s.
Qed.

(** Whatever the angle, a table whose values never go up gives a value not
    above the one it starts from. *)
Lemma stair_below (tbl : list (float * float)) (v c z : float) :
  SFleb v c = true -> decreasing_from v tbl = true ->
  SFleb (stair tbl v z) c = true.
Proof.
  revert v. induction tbl as [|[t v'] rest IH]; intros v Hv Hd; simpl.
  - exact Hv.
  - simpl in Hd. apply andb_prop in Hd. destruct Hd as [Hv' Hd].
    destruct (SFleb t z); [|exact Hv].
    apply IH; [|exact Hd]. exact (SFleb_trans _ _ _ Hv' Hv).
Qed.

Lemma stair_non_increasing (tbl : list (float * float)) (cur x y : float) :
  SFltb x y = true -> SFleb cur cur = true ->
  decreasing_from cur tbl = true ->
  SFleb (stair tbl cur y) (stair tbl cur x) = true.
Proof.
  intros Hxy. revert cur.
  induction tbl as [|[t v] rest IH]; intros cur Hc Hd; simpl.
  - exact Hc.
  - simpl in Hd. apply andb_prop in Hd. destruct Hd as [Hv Hd].
    destruct (SFleb t x) eqn:Htx.
    + rewrite (SFleb_trans _ _ _ Htx (SFltb_leb _ _ Hxy)).
      apply IH; [exact (SFleb_refl_of _ _ Hv) | exact Hd].
    + destruct (SFleb t y); [|exact Hc].
      apply stair_below; assumption.
Qed.

Lemma table_libm_non_increasing : cosf_non_increasing table_libm.
Proof.
  intros x y _ Hxy _. apply stair_non_increasing; [exact Hxy| |]; reflexivity.
Qed.

(** C5 (as the code has it). With a C library whose cosine does not
    increase over [0, pi]: for angles [a1 < a2] both in [0, pi], the cosine
    stored by [setAngularThreshold (a2)] is less than or equal to the one
    stored by [setAngularThreshold (a1)], so for every index pair, if
    [compare] returns true under [a1] it returns true under [a2], all else
    unchanged. *)
Theorem larger_angle_keeps_accepted_pairs
        (L : Libm) (a1 a2 : float) (s : Comparator) :
  cosf_non_increasing L ->
  F32.leb F32.zero a1 = true -> F32.ltb a1 a2 = true ->
  F32.leb a2 pi_float = true ->
  F32.leb (angular_threshold_ (@setAngularThreshold L a2 s))
          (angular_threshold_ (@setAngularThreshold L a1 s)) = true /\
  (forall i j : Z,
      result (compare i j (@setAngularThreshold L a1 s)) = Some true ->
      result (compare i j (@setAngularThreshold L a2 s)) = Some true).
Proof.
  intros Hmono H0 H12 Hpi.
  assert (Hle : F32.leb (angular_threshold_ (@setAngularThreshold L a2 s))
                        (angular_threshold_ (@setAngularThreshold L a1 s)) = true)
    by exact (Hmono a1 a2 H0 H12 Hpi).
  split; [exact Hle|].
  intros i j. now apply accepted_under_smaller_cosine.
Qed.

Lemma larger_angle_keeps_accepted_pairs_witness :
  F32.leb (angular_threshold_
             (@setAngularThreshold table_libm (int_to_float 1) sample_comparator))
          (angular_threshold_
             (@setAngularThreshold table_libm (float_lit 1 2) sample_comparator))
  = true /\
  (forall i j : Z,
      result (compare i j
                (@setAngularThreshold table_libm (float_lit 1 2) sample_comparator))
      = Some true ->
      result (compare i j
                (@setAngularThreshold table_libm (int_to_float 1) sample_comparator))
      = Some true).
Proof.
  apply (larger_angle_keeps_accepted_pairs table_libm
           (float_lit 1 2) (int_to_float 1) sample_comparator).
  - exact table_libm_non_increasing.
  - reflexivity.
  - reflexivity.
  - reflexivity.
Defined.

(** Under the table-driven cosine the sample pair is accepted at the angle
    0.5 and, as the larger angle keeps it, at the angle 1. *)
Example table_cosf_accepts_sample_pair :
  result (compare 0 1 (@setAngularThreshold table_libm (float_lit 1 2) sample_comparator))
  = Some true /\
  result (compare 0 1 (@setAngularThreshold table_libm (int_to_float 1) sample_comparator))
  = Some true.
Proof. repeat split; vm_compute; reflexivity. Qed.

(** C5 (as stated) fails: no C library whose cosine is faithful near zero
    stores a strictly smaller cosine for every larger angle of [0, pi];
    the angles 0 < 2^-149 < 2^-148 would need three decreasing values among
    the two floats 1 and its predecessor. *)
Lemma stored_cosine_not_strictly_decreasing :
  ~ exists L : Libm,
      cosf_faithful_near_zero L /\
      forall a1 a2 : float,
        F32.leb F32.zero a1 = true -> F32.ltb a1 a2 = true ->
        F32.leb a2 pi_float = true ->
        F32.ltb (angular_threshold_ (@setAngularThreshold L a2 new))
                (angular_threshold_ (@setAngularThreshold L a1 new)) = true.
Proof.
  intros (L & Hf & Hstrict).
  pose proof (Hstrict F32.zero F32.tiny1 eq_refl eq_refl eq_refl) as H01.
  pose proof (Hstrict F32.tiny1 F32.tiny2 eq_refl eq_refl eq_refl) as H12.
  change (SFltb (cosf F32.tiny1) (cosf F32.zero) = true) in H01.
  change (SFltb (cosf F32.tiny2) (cosf F32.tiny1) = true) in H12.
  destruct (Hf F32.zero (or_introl eq_refl)) as [E0|E0];
    destruct (Hf F32.tiny1 (or_intror (or_introl eq_refl))) as [E1|E1];
    destruct (Hf F32.tiny2 (or_intror (or_intror (or_introl eq_refl)))) as [E2|E2];
    rewrite E0, E1 in H01; rewrite E1, E2 in H12;
    first [ discriminate H01 | discriminate H12 ].
Qed.

(** ** C7: setters and getters *)

Lemma SFeqb_common (u a b : spec_float) :
  SFeqb u a = true -> SFeqb u b = true -> SFeqb a b = true.
Proof.
  unfold SFeqb.
  destruct u as [su|su| |su mu eu], a as [sa|sa| |sa ma ea],
           b as [sb|sb| |sb mb eb]; simpl;
    try discriminate; try reflexivity;
    try (destruct su; simpl; try discriminate; try reflexivity);
    try (destruct sa; simpl; try discriminate; try reflexivity);
    try (destruct sb; simpl; try discriminate; try reflexivity).
  all: change (Pos.compare_cont Eq) with Pos.compare.
  all: destruct (Z.compare_spec eu ea); destruct (Z.compare_spec eu eb);
    destruct (Z.compare_spec ea eb); try lia;
    try discriminate; try reflexivity; subst;
    destruct (Pos.compare_spec mu ma); destruct (Pos.compare_spec mu mb);
    destruct (Pos.compare_spec ma mb); simpl; try lia;
    try discriminate; try reflexivity.
Qed.

(** C7 (as the code has it). [setAngularThreshold (a)] stores [cosf (a)]
    and [getAngularThreshold] returns [acosf] of the stored value, so the
    getter after the setter returns [acosf (cosf (a))];
    [setDistanceThreshold (d)] stores [d * d] and [setColorThreshold (c)]
    stores [c * c], and their getters return the stored square as it is:
    for 0.02 and 50 that is not the configured value. *)
Theorem setters_store_transforms_getters_invert
        `{Libm} (a d c : float) (s : Comparator) :
  angular_threshold_ (setAngularThreshold a s) = cosf a /\
  getAngularThreshold s = acosf (angular_threshold_ s) /\
  getAngularThreshold (setAngularThreshold a s) = acosf (cosf a) /\
  distance_threshold_ (setDistanceThreshold d s) = F32.mul d d /\
  color_threshold_ (setColorThreshold c s) = F32.mul c c /\
  getDistanceThreshold s = distance_threshold_ s /\
  getColorThreshold s = color_threshold_ s /\
  getDistanceThreshold (setDistanceThreshold d s) = F32.mul d d /\
  getColorThreshold (setColorThreshold c s) = F32.mul c c /\
  F32.eqb (getDistanceThreshold (setDistanceThreshold (float_lit 2 100) s))
          (float_lit 2 100) = false /\
  F32.eqb (getColorThreshold (setColorThreshold (int_to_float 50) s))
          (int_to_float 50) = false.
Proof. repeat split; reflexivity. Qed.

(** C7 (as stated) fails in its round trip: with no C library whose cosine
    is faithful near zero does [getAngularThreshold] after
    [setAngularThreshold (a)] return [a] for every [a] of [0, pi]; two of
    the angles 0, 2^-149 and 2^-148 store the same cosine and so read back
    as the same angle. *)
Lemma angular_threshold_round_trip_fails :
  ~ exists L : Libm,
      cosf_faithful_near_zero L /\
      forall a : float,
        F32.leb F32.zero a = true -> F32.leb a pi_float = true ->
        F32.eqb (@getAngularThreshold L (@setAngularThreshold L a new)) a = true.
Proof.
  intros (L & Hf & Hrt).
  pose proof (Hrt F32.zero eq_refl eq_refl) as R0.
  pose proof (Hrt F32.tiny1 eq_refl eq_refl) as R1.
  pose proof (Hrt F32.tiny2 eq_refl eq_refl) as R2.
  change (SFeqb (acosf (cosf F32.zero)) F32.zero = true) in R0.
  change (SFeqb (acosf (cosf F32.tiny1)) F32.tiny1 = true) in R1.
  change (SFeqb (acosf (cosf F32.tiny2)) F32.tiny2 = true) in R2.
  assert (D01 : SFeqb F32.zero F32.tiny1 = false) by reflexivity.
  assert (D02 : SFeqb F32.zero F32.tiny2 = false) by reflexivity.
  assert (D12 : SFeqb F32.tiny1 F32.tiny2 = false) by reflexivity.
  destruct (Hf F32.zero (or_introl eq_refl)) as [E0|E0];
    destruct (Hf F32.tiny1 (or_intror (or_introl eq_refl))) as [E1|E1];
    destruct (Hf F32.tiny2 (or_intror (or_intror (or_introl eq_refl)))) as [E2|E2];
    rewrite E0 in R0; rewrite E1 in R1; rewrite E2 in R2;
    first [ rewrite (SFeqb_common _ _ _ R0 R1) in D01; discriminate D01
          | rewrite (SFeqb_common _ _ _ R0 R2) in D02; discriminate D02
          | rewrite (SFeqb_common _ _ _ R1 R2) in D12; discriminate D12 ].
Qed.

(** * Further properties of the code *)

(** ** Points with a coordinate that is not finite *)

Lemma SFsub_not_finite (prec emax : Z) (a b : spec_float) :
  is_finite a && is_finite b = false ->
  is_finite (SFsub prec emax a b) = false.
Proof.
  destruct a as [sa|sa| |sa ma ea], b as [sb|sb| |sb mb eb]; simpl;
    try discriminate; try reflexivity; now destruct sa, sb.
Qed.

Lemma float_to_double_not_finite (f : float) :
  is_finite f = false -> is_finite (float_to_double f) = false.
Proof. destruct f; simpl; try discriminate; reflexivity. Qed.

Lemma SFmul_square_not_finite (prec emax : Z) (d : spec_float) :
  is_finite d = false -> pinf_or_nan (SFmul prec emax d d) = true.
Proof.
  destruct d as [s|s| |s m e]; simpl; try discriminate; try reflexivity.
  now destruct s.
Qed.

Lemma SFmul_square_not_negative (prec emax : Z) (d : spec_float) :
  not_negative (SFmul prec emax d d) = true.
Proof.
  destruct d as [s|s| |s m e]; simpl; rewrite ?xorb_nilpotent; try reflexivity.
  apply binary_round_aux_not_negative.
Qed.

Lemma SFadd_not_negative (prec emax : Z) (a b : spec_float) :
  not_negative a = true -> not_negative b = true ->
  not_negative (SFadd prec emax a b) = true.
Proof.
  destruct a as [sa|sa| |sa ma ea], b as [sb|sb| |sb mb eb]; simpl;
    try discriminate; try reflexivity;
    try (destruct sa; try discriminate); try (destruct sb; try discriminate);
    try reflexivity.
  intros _ _. unfold cond_Zopp.
  destruct (shl_align ma ea (Z.min ea eb)) as [m1 e1].
  destruct (shl_align mb eb (Z.min ea eb)) as [m2 e2]. simpl.
  apply binary_round_not_negative.
Qed.

Lemma SFadd_pinf_or_nan_l (prec emax : Z) (a b : spec_float) :
  pinf_or_nan a = true -> not_negative b = true ->
  pinf_or_nan (SFadd prec emax a b) = true.
Proof.
  destruct a as [sa|sa| |sa ma ea], b as [sb|sb| |sb mb eb]; simpl;
    try discriminate; try reflexivity;
    try (destruct sa; try discriminate); try (destruct sb; try discriminate);
    reflexivity.
Qed.

Lemma SFadd_pinf_or_nan_r (prec emax : Z) (a b : spec_float) :
  not_negative a = true -> pinf_or_nan b = true ->
  pinf_or_nan (SFadd prec emax a b) = true.
Proof.
  intros Ha Hb. rewrite SFadd_comm. now apply SFadd_pinf_or_nan_l.
Qed.

Lemma SFsqrt_pinf_or_nan (prec emax : Z) (a : spec_float) :
  pinf_or_nan a = true -> pinf_or_nan (SFsqrt prec emax a) = true.
Proof.
  destruct a as [s|s| |s m e]; simpl; try discriminate; try reflexivity.
  now destruct s.
Qed.

Lemma pinf_or_nan_ltb (a t : spec_float) :
  pinf_or_nan a = true -> SFltb a t = false.
Proof.
  destruct a as [s|s| |s m e]; simpl; try discriminate; [|reflexivity].
  destruct s; [discriminate|]. intros _.
  destruct t as [st|st| |st mt et]; try reflexivity. now destruct st.
Qed.

(** The square of a widened coordinate difference. *)
Lemma square_diff_cases (a b : float) :
  not_negative (sq (float_to_double (F32.sub a b))) = true /\
  (is_finite a && is_finite b = false ->
   pinf_or_nan (sq (float_to_double (F32.sub a b))) = true).
Proof.
  split; [apply SFmul_square_not_negative|].
  intros H. apply SFmul_square_not_finite, float_to_double_not_finite.
  now apply SFsub_not_finite.
Qed.

Lemma euclidean_distance_not_finite (p q : PointT.t) :
  finite_position p && finite_position q = false ->
  pinf_or_nan (euclidean_distance p q) = true.
Proof.
  intros H. unfold euclidean_distance. simpl fold_left.
  destruct (square_diff_cases (PointT.x p) (PointT.x q)) as [Nx Bx].
  destruct (square_diff_cases (PointT.y p) (PointT.y q)) as [Ny By].
  destruct (square_diff_cases (PointT.z p) (PointT.z q)) as [Nz Bz].
  apply SFsqrt_pinf_or_nan.
  unfold finite_position in H.
  destruct (is_finite (PointT.x p) && is_finite (PointT.x q)) eqn:Ex.
  - destruct (is_finite (PointT.y p) && is_finite (PointT.y q)) eqn:Ey.
    + apply SFadd_pinf_or_nan_r; [now apply SFadd_not_negative|].
      apply Bz.
      apply andb_prop in Ex, Ey. destruct Ex as [Ex1 Ex2], Ey as [Ey1 Ey2].
      rewrite Ex1, Ex2, Ey1, Ey2 in H. simpl in H.
      destruct (is_finite (PointT.z p)); [exact H | reflexivity].
    + apply SFadd_pinf_or_nan_l; [|exact Nz].
      apply SFadd_pinf_or_nan_r; [exact Nx | now apply By].
  - apply SFadd_pinf_or_nan_l; [|exact Nz].
    apply SFadd_pinf_or_nan_l; [now apply Bx | exact Ny].
Qed.

(** X1. A pair with a NaN or infinite coordinate is never accepted: when
    the point sequence is configured and both indices are inside it,
    [compare] returns false as soon as one of the six coordinates is not
    finite, whatever the thresholds, the colours and the normals (which it
    does not read, so they need not even be configured). *)
Theorem not_finite_point_rejected
        (s : Comparator) (i j : Z) (cloud : PointCloud) (p1 p2 : PointT.t) :
  input_ s = Some cloud ->
  at_index cloud i = Some p1 -> at_index cloud j = Some p2 ->
  finite_position p1 && finite_position p2 = false ->
  compare i j s = Some (false, s).
Proof.
  intros Hin H1 H2 Hf.
  rewrite (compare_cloud s i j cloud p1 p2 Hin H1 H2).
  unfold distance_test, F64.ltb.
  now rewrite (pinf_or_nan_ltb _ _ (euclidean_distance_not_finite p1 p2 Hf)).
Qed.

Lemma not_finite_point_rejected_witness :
  compare 1 2 (setInputNormals None nan_comparator)
  = Some (false, setInputNormals None nan_comparator).
Proof.
  apply (not_finite_point_rejected (setInputNormals None nan_comparator) 1 2
           [cell_nan; cell_nan; cell_a] cell_nan cell_a); reflexivity.
Defined.

(** ** Thresholds that are not positive *)

(** Something above a float that is not below zero is above zero. *)
Lemma not_negative_ltb_positive (a t : spec_float) :
  not_negative a = true -> SFltb a t = true -> SFltb (S754_zero false) t = true.
Proof.
  destruct a as [sa|sa| |sa ma ea], t as [st|st| |st mt et]; simpl;
    try discriminate; try reflexivity;
    try (destruct sa; try discriminate); try (destruct st; try discriminate);
    reflexivity.
Qed.

Lemma binary_round_aux_negative (prec emax m e : Z) (l : location) :
  SFltb (S754_zero false) (binary_round_aux prec emax true m e l) = false.
Proof.
  unfold binary_round_aux.
  destruct (shr_fexp prec emax m e l) as [mrs' e'].
  destruct (shr_fexp prec emax _ e' loc_Exact) as [mrs'' e''].
  destruct (shr_m mrs''); try reflexivity.
  now destruct (e'' <=? emax - prec).
Qed.

(** Widening does not make a positive number of one that is not. *)
Lemma float_to_double_positive_inv (t : float) :
  F64.ltb F64.zero (float_to_double t) = true -> F32.ltb F32.zero t = true.
Proof.
  destruct t as [s|s| |s m e]; simpl; try discriminate; try (intros H; exact H).
  destruct s; [|reflexivity].
  unfold binary_round. destruct (shl_align m e _) as [mz ez].
  unfold F64.ltb, F64.zero. now rewrite binary_round_aux_negative.
Qed.

(** X2. [compare] accepts a pair only under positive distance and colour
    thresholds and an angular threshold that is not NaN: when a call
    returns true, the stored distance threshold and the stored colour
    threshold are above zero (neither zero, nor negative, nor NaN) and the
    stored cosine is not NaN. *)
Theorem accepted_only_under_positive_thresholds
        (s : Comparator) (i j : Z) :
  result (compare i j s) = Some true ->
  F32.ltb F32.zero (distance_threshold_ s) = true /\
  F32.ltb F32.zero (color_threshold_ s) = true /\
  is_nan (angular_threshold_ s) = false.
Proof.
  intros Hacc.
  destruct (compare_true_inv s i j Hacc)
    as (cloud & ncloud & p1 & p2 & n1 & n2 &
        Hin & Hn & H1 & H2 & H3 & H4 & Hd & Ha & Hc).
  unfold distance_test, normal_test, color_test in *.
  repeat split.
  - apply float_to_double_positive_inv.
    apply (not_negative_ltb_positive (euclidean_distance p1 p2)); [|exact Hd].
    apply SFsqrt_not_negative.
  - apply (not_negative_ltb_positive (int_to_float (squared_color_distance p1 p2)));
      [|exact Hc].
    apply int_to_float_not_negative, (color_dist_of_exact p1 p2).
  - destruct (angular_threshold_ s); try reflexivity. discriminate Ha.
Qed.

Lemma accepted_only_under_positive_thresholds_witness :
  F32.ltb F32.zero (distance_threshold_ sample_comparator) = true /\
  F32.ltb F32.zero (color_threshold_ sample_comparator) = true /\
  is_nan (angular_threshold_ sample_comparator) = false.
Proof.
  apply (accepted_only_under_positive_thresholds sample_comparator 0 1).
  reflexivity.
Defined.

(** ** The sign of a configured distance or colour threshold *)

Lemma SFabs_opp (f : spec_float) : SFabs (SFopp f) = SFabs f.
Proof. now destruct f. Qed.

(** X3. [setDistanceThreshold] and [setColorThreshold] square their
    argument, so its sign is lost: configuring [-d] leaves the object
    exactly as configuring [d] does, and the value the getter then returns
    is never below zero. *)
Theorem threshold_setters_ignore_sign (d : float) (s : Comparator) :
  setDistanceThreshold (SFopp d) s = setDistanceThreshold d s /\
  setColorThreshold (SFopp d) s = setColorThreshold d s /\
  not_negative (getDistanceThreshold (setDistanceThreshold d s)) = true /\
  not_negative (getColorThreshold (setColorThreshold d s)) = true.
Proof.
  assert (E : F32.mul (SFopp d) (SFopp d) = F32.mul d d)
    by apply SFmul_square_abs, SFabs_opp.
  unfold setDistanceThreshold, setColorThreshold, getDistanceThreshold,
    getColorThreshold. simpl. rewrite E.
  repeat split; apply SFmul_square_not_negative.
Qed.

(** ** The colour test in integers *)

Lemma digits2_pos_range (n : positive) :
  2 ^ (Z.pos (digits2_pos n) - 1) <= Z.pos n < 2 ^ Z.pos (digits2_pos n).
Proof.
  induction n as [n IH|n IH|]; simpl digits2_pos.
  - rewrite Pos2Z.inj_succ, Z.pow_succ_r by lia.
    replace (Z.succ (Z.pos (digits2_pos n)) - 1)
      with (Z.succ (Z.pos (digits2_pos n) - 1)) by lia.
    rewrite Z.pow_succ_r by lia. lia.
  - rewrite Pos2Z.inj_succ, Z.pow_succ_r by lia.
    replace (Z.succ (Z.pos (digits2_pos n)) - 1)
      with (Z.succ (Z.pos (digits2_pos n) - 1)) by lia.
    rewrite Z.pow_succ_r by lia. lia.
  - simpl. lia.
Qed.

(** More digits, larger number. *)
Lemma digits2_pos_lt (a b : positive) :
  Z.pos (digits2_pos a) < Z.pos (digits2_pos b) -> Z.pos a < Z.pos b.
Proof.
  intros H.
  pose proof (digits2_pos_range a) as [_ Ha].
  pose proof (digits2_pos_range b) as [Hb _].
  assert (2 ^ Z.pos (digits2_pos a) <= 2 ^ (Z.pos (digits2_pos b) - 1))
    by (apply Z.pow_le_mono_r; lia).
  lia.
Qed.

(** The canonical form of a converted [int] of at most 24 bits. *)
Lemma int_to_float_canonical (n : positive) :
  Z.pos (digits2_pos n) <= 24 ->
  exists m : positive,
    int_to_float (Z.pos n) = S754_finite false m (Z.pos (digits2_pos n) - 24) /\
    Z.pos m = Z.pos n * 2 ^ (24 - Z.pos (digits2_pos n)).
Proof.
  intros Hd.
  unfold int_to_float, binary_normalize, binary_round, F32.prec, F32.emax.
  set (d := Z.pos (digits2_pos n)) in *.
  assert (Hd0 : 0 < d) by (unfold d; lia).
  assert (Hf : fexp 24 128 (d + 0) = d - 24) by (unfold fexp, emin; lia).
  rewrite Hf. unfold shl_align.
  destruct (Z.eq_dec d 24) as [E|E].
  - replace (d - 24 - 0) with 0 by lia.
    exists n. split; [|rewrite E; simpl; lia].
    unfold binary_round_aux, shr_fexp. cbn [Zdigits2 shr_record_of_loc].
    fold d. rewrite E.
    change (fexp 24 128 (24 + 0) - 0) with 0.
    cbn [shr shr_m loc_of_shr_record round_nearest_even Zdigits2].
    fold d. rewrite E.
    change (fexp 24 128 (24 + 0) - 0) with 0.
    cbn [shr shr_m]. reflexivity.
  - set (k := Z.to_pos (24 - d)).
    assert (Hk : Z.pos k = 24 - d) by (unfold k; rewrite Z2Pos.id; lia).
    replace (d - 24 - 0) with (Z.neg k) by (rewrite <- Pos2Z.opp_pos; lia).
    exists (Pos.iter xO n k).
    split; [|rewrite iter_xO_pow, Hk; reflexivity].
    unfold binary_round_aux, shr_fexp. cbn [Zdigits2 shr_record_of_loc].
    rewrite digits2_pos_iter_xO. rewrite Pos2Z.inj_add. fold d. rewrite Hk.
    replace (d + (24 - d)) with 24 by lia.
    assert (Hf2 : fexp 24 128 (24 + (d - 24)) - (d - 24) = 0)
      by (unfold fexp, emin; lia).
    rewrite Hf2. cbn [shr shr_m loc_of_shr_record round_nearest_even Zdigits2].
    rewrite digits2_pos_iter_xO. rewrite Pos2Z.inj_add. fold d. rewrite Hk.
    replace (d + (24 - d)) with 24 by lia.
    rewrite Hf2. cbn [shr shr_m].
    replace (d - 24 <=? 128 - 24) with true by (symmetry; apply Z.leb_le; lia).
    reflexivity.
Qed.

Lemma digits2_pos_le_24 (n : positive) :
  Z.pos n < 2 ^ 24 -> Z.pos (digits2_pos n) <= 24.
Proof. intros H. exact (digits2_pos_bound n 24 H). Qed.

(** On integers of at most 24 bits the [float] order is the integer one. *)
Lemma int_to_float_ltb (a b : Z) :
  0 <= a < 2 ^ 24 -> 0 <= b < 2 ^ 24 ->
  F32.ltb (int_to_float a) (int_to_float b) = (a <? b).
Proof.
  intros Ha Hb.
  destruct a as [|a|a]; [| |lia]; (destruct b as [|b|b]; [| |lia]).
  - reflexivity.
  - destruct (int_to_float_canonical b) as (mb & -> & _);
      [apply digits2_pos_le_24; lia | reflexivity].
  - destruct (int_to_float_canonical a) as (ma & -> & _);
      [apply digits2_pos_le_24; lia | reflexivity].
  - destruct (int_to_float_canonical a) as (ma & -> & Hma);
      [apply digits2_pos_le_24; lia|].
    destruct (int_to_float_canonical b) as (mb & -> & Hmb);
      [apply digits2_pos_le_24; lia|].
    pose proof (digits2_pos_le_24 a ltac:(lia)) as Da.
    pose proof (digits2_pos_le_24 b ltac:(lia)) as Db.
    unfold F32.ltb, SFltb, SFcompare.
    change (Pos.compare_cont Eq) with Pos.compare.
    set (da := Z.pos (digits2_pos a)) in *.
    set (db := Z.pos (digits2_pos b)) in *.
    destruct (Z.compare_spec (da - 24) (db - 24)) as [E|E|E].
    + assert (E' : da = db) by lia. rewrite E' in Hma.
      assert (P : 0 < 2 ^ (24 - db)) by (apply Z.pow_pos_nonneg; lia).
      destruct (Pos.compare_spec ma mb) as [C|C|C]; symmetry.
      * apply Z.ltb_ge. subst mb. nia.
      * apply Z.ltb_lt. apply Pos2Z.pos_lt_pos in C. nia.
      * apply Z.ltb_ge. apply Pos2Z.pos_lt_pos in C. nia.
    + symmetry. apply Z.ltb_lt. apply digits2_pos_lt. fold da db. lia.
    + symmetry. apply Z.ltb_ge.
      assert (Z.pos b < Z.pos a) by (apply digits2_pos_lt; fold da db; lia). lia.
Qed.

Lemma sf_same_eq (a b : spec_float) : sf_same a b = true -> a = b.
Proof.
  destruct a as [sa|sa| |sa ma ea], b as [sb|sb| |sb mb eb]; simpl;
    try discriminate; try reflexivity.
  - intros H. now rewrite (eqb_prop _ _ H).
  - intros H. now rewrite (eqb_prop _ _ H).
  - intros H. apply andb_prop in H. destruct H as [H He].
    apply andb_prop in H. destruct H as [Hs Hm].
    apply eqb_prop in Hs. apply Pos.eqb_eq in Hm. apply Z.eqb_eq in He.
    now subst.
Qed.

Lemma squares_exact_from_spec (n : nat) (c0 c : Z) :
  squares_exact_from n c0 = true ->
  c0 <= c < c0 + Z.of_nat n ->
  F32.mul (int_to_float c) (int_to_float c) = int_to_float (c * c).
Proof.
  revert c0. induction n as [|n IH]; intros c0 H Hc; [simpl in Hc; lia|].
  simpl in H. apply andb_prop in H. destruct H as [H0 H1].
  destruct (Z.eq_dec c c0) as [->|Hne].
  - now apply sf_same_eq.
  - apply (IH (c0 + 1) H1). rewrite Nat2Z.inj_succ in Hc. lia.
Qed.

Lemma squares_exact_from_0_4096 : squares_exact_from 4096 0 = true.
Proof. vm_compute. reflexivity. Qed.

(** Squaring an integer of at most 12 bits in [float] is exact. *)
Lemma int_to_float_square (c : Z) :
  0 <= c <= 4095 ->
  F32.mul (int_to_float c) (int_to_float c) = int_to_float (c * c).
Proof.
  intros Hc.
  apply (squares_exact_from_spec 4096 0 c squares_exact_from_0_4096).
  change (Z.of_nat 4096) with 4096. lia.
Qed.

(** The colour test after [setColorThreshold (c)] for an integer [c]. *)
Lemma color_test_integer (c : Z) (s : Comparator) (p q : PointT.t) :
  0 <= c <= 4095 ->
  color_test (setColorThreshold (int_to_float c) s) p q =
  (squared_color_distance p q <? c * c).
Proof.
  intros Hc. unfold color_test. simpl color_threshold_.
  rewrite (int_to_float_square c Hc).
  destruct (color_dist_of_exact p q) as [_ Hr].
  apply int_to_float_ltb.
  - change (2 ^ 24) with 16777216. lia.
  - change (2 ^ 24) with 16777216. nia.
Qed.

(** X4. After [setColorThreshold (c)] for an integer [0 <= c <= 4095], the
    colour test of [compare] is exact integer arithmetic: a pair in bounds
    is accepted iff it passes the distance and normal tests and the sum of
    its squared channel differences is less than [c * c]; no rounding takes
    part. *)
Theorem color_test_is_integer_comparison
        (c : Z) (s : Comparator) (i j : Z) (cloud : PointCloud) (ncloud : PointCloudN)
        (p1 p2 : PointT.t) (n1 n2 : PointNT.t) :
  0 <= c <= 4095 ->
  input_ s = Some cloud -> normals_ s = Some ncloud ->
  at_index cloud i = Some p1 -> at_index cloud j = Some p2 ->
  at_index ncloud i = Some n1 -> at_index ncloud j = Some n2 ->
  result (compare i j (setColorThreshold (int_to_float c) s)) =
  Some (distance_test s p1 p2 && normal_test s n1 n2 &&
        (squared_color_distance p1 p2 <? c * c)).
Proof.
  intros Hc Hin Hn H1 H2 H3 H4.
  rewrite (compare_in_bounds _ i j cloud ncloud p1 p2 n1 n2) by assumption.
  now rewrite (color_test_integer c s p1 p2 Hc).
Qed.

Lemma color_test_is_integer_comparison_witness :
  result (compare 0 1 (setColorThreshold (int_to_float 5) sample_comparator)) =
  Some (distance_test sample_comparator cell_a cell_b &&
        normal_test sample_comparator up up &&
        (squared_color_distance cell_a cell_b <? 5 * 5)).
Proof.
  apply (color_test_is_integer_comparison 5 sample_comparator 0 1
           sample_cloud sample_normals cell_a cell_b up up);
    first [lia | reflexivity].
Defined.

(** X5. Colour never rejects a pair once the colour threshold is configured
    to an integer from 442 on (up to 4095): the sum of three squared
    differences of bytes is at most 195075, below 442 squared, so [compare]
    then returns the conjunction of the distance and normal tests alone. *)
Theorem large_color_threshold_disables_color_test
        (c : Z) (s : Comparator) (i j : Z) (cloud : PointCloud) (ncloud : PointCloudN)
        (p1 p2 : PointT.t) (n1 n2 : PointNT.t) :
  442 <= c <= 4095 ->
  input_ s = Some cloud -> normals_ s = Some ncloud ->
  at_index cloud i = Some p1 -> at_index cloud j = Some p2 ->
  at_index ncloud i = Some n1 -> at_index ncloud j = Some n2 ->
  result (compare i j (setColorThreshold (int_to_float c) s)) =
  Some (distance_test s p1 p2 && normal_test s n1 n2).
Proof.
  intros Hc Hin Hn H1 H2 H3 H4.
  rewrite (compare_in_bounds _ i j cloud ncloud p1 p2 n1 n2) by assumption.
  rewrite (color_test_integer c s p1 p2) by lia.
  destruct (color_dist_of_exact p1 p2) as [_ Hr].
  replace (squared_color_distance p1 p2 <? c * c) with true
    by (symmetry; apply Z.ltb_lt; nia).
  now rewrite andb_true_r.
Qed.

Lemma large_color_threshold_disables_color_test_witness :
  result (compare 0 1 (setColorThreshold (int_to_float 442) sample_comparator)) =
  Some (distance_test sample_comparator cell_a cell_b &&
        normal_test sample_comparator up up).
Proof.
  apply (large_color_threshold_disables_color_test 442 sample_comparator 0 1
           sample_cloud sample_normals cell_a cell_b up up);
    first [lia | reflexivity].
Defined.

(** ** Widening keeps the order *)

Lemma iter_xO_compare (a b k : positive) :
  Pos.compare (Pos.iter xO a k) (Pos.iter xO b k) = Pos.compare a b.
Proof.
  induction k as [|k IH] using Pos.peano_ind.
  - reflexivity.
  - rewrite !Pos.iter_succ. simpl. exact IH.
Qed.

(** What [bounded] says of a [float]: at most 24 digits, an exponent from
    -149 on that is the least one possible. *)
Lemma bounded_inv (m : positive) (e : Z) :
  bounded F32.prec F32.emax m e = true ->
  Z.max (Z.pos (digits2_pos m) + e - 24) (-149) = e.
Proof.
  unfold bounded, canonical_mantissa, fexp, emin, F32.prec, F32.emax.
  intros H. apply andb_prop in H. destruct H as [H _].
  apply Z.eqb_eq in H. lia.
Qed.

(** The order of two positive [float]s, exponent first, is the order of
    their widened forms. *)
Lemma widen_lex (ma mb : positive) (ea eb : Z) :
  bounded F32.prec F32.emax ma ea = true ->
  bounded F32.prec F32.emax mb eb = true ->
  match ea - (53 - Z.pos (digits2_pos ma)) ?= eb - (53 - Z.pos (digits2_pos mb)) with
  | Eq => Pos.compare_cont Eq
            (Pos.iter xO ma (Z.to_pos (53 - Z.pos (digits2_pos ma))))
            (Pos.iter xO mb (Z.to_pos (53 - Z.pos (digits2_pos mb))))
  | Lt => Lt
  | Gt => Gt
  end =
  match ea ?= eb with
  | Eq => Pos.compare_cont Eq ma mb
  | Lt => Lt
  | Gt => Gt
  end.
Proof.
  intros Ha Hb.
  apply bounded_inv in Ha. apply bounded_inv in Hb.
  change (Pos.compare_cont Eq) with Pos.compare.
  pose proof (digits2_pos_lt ma mb) as Lab.
  pose proof (digits2_pos_lt mb ma) as Lba.
  set (da := Z.pos (digits2_pos ma)) in *.
  set (db := Z.pos (digits2_pos mb)) in *.
  destruct (Z.compare_spec (ea - (53 - da)) (eb - (53 - db))) as [E|E|E].
  - assert (Ee : ea = eb) by lia. assert (Ed : da = db) by lia.
    rewrite Ed, iter_xO_compare. subst eb. now rewrite Z.compare_refl.
  - destruct (Z.compare_spec ea eb) as [E'|E'|E']; [|reflexivity|lia].
    symmetry. apply Pos.compare_lt_iff. apply Pos2Z.pos_lt_pos, Lab. lia.
  - destruct (Z.compare_spec ea eb) as [E'|E'|E']; [|lia|reflexivity].
    symmetry. apply Pos.compare_gt_iff. apply Pos2Z.pos_lt_pos, Lba. lia.
Qed.

Lemma lex_opp (c x : comparison) :
  match c with Eq => CompOpp x | Lt => Gt | Gt => Lt end =
  CompOpp (match c with Eq => x | Lt => Lt | Gt => Gt end).
Proof. now destruct c. Qed.

(** Comparing two [float]s after widening them to [double] gives what
    comparing them gives. *)
Lemma float_to_double_compare (a b : float) :
  F32.valid a = true -> F32.valid b = true ->
  SFcompare (float_to_double a) (float_to_double b) = SFcompare a b.
Proof.
  intros Va Vb.
  destruct a as [sa|sa| |sa ma ea], b as [sb|sb| |sb mb eb];
    try reflexivity;
    try (simpl in Va; rewrite (float_to_double_finite _ _ _ Va));
    try (simpl in Vb; rewrite (float_to_double_finite _ _ _ Vb));
    try reflexivity.
  unfold SFcompare. destruct sa, sb; try reflexivity.
  - rewrite !lex_opp. now rewrite (widen_lex ma mb ea eb Va Vb).
  - now rewrite (widen_lex ma mb ea eb Va Vb).
Qed.

(** [d < c1 <= c2] gives [d < c2]. *)
Lemma SFltb_leb_trans (d c1 c2 : spec_float) :
  SFltb d c1 = true -> SFleb c1 c2 = true -> SFltb d c2 = true.
Proof.
  unfold SFleb, SFltb.
  destruct d as [s|s| |s m e], c1 as [s1|s1| |s1 m1 e1],
           c2 as [s2|s2| |s2 m2 e2]; simpl;
    try discriminate; try reflexivity;
    try (destruct s; simpl; try discriminate; try reflexivity);
    try (destruct s1; simpl; try discriminate; try reflexivity);
    try (destruct s2; simpl; try discriminate; try reflexivity).
  all: change (Pos.compare_cont Eq) with Pos.compare.
  all: destruct (Z.compare_spec e e1); destruct (Z.compare_spec e1 e2);
    destruct (Z.compare_spec e e2); try lia;
    try discriminate; try reflexivity; subst;
    destruct (Pos.compare_spec m m1); destruct (Pos.compare_spec m1 m2);
    destruct (Pos.compare_spec m m2); simpl; try lia;
    try discriminate; try reflexivity.
Qed.

(** X6. Raising the stored distance or colour threshold never turns an
    accepted pair into a rejected one: if two objects read the same point
    and normal sequences under the same angular threshold, and the second
    one's [getDistanceThreshold] and [getColorThreshold] report values not
    below the first one's, every pair the first accepts the second accepts
    too. *)
Theorem larger_stored_thresholds_keep_accepted_pairs
        (s1 s2 : Comparator) (i j : Z) :
  input_ s2 = input_ s1 -> normals_ s2 = normals_ s1 ->
  angular_threshold_ s2 = angular_threshold_ s1 ->
  F32.valid (getDistanceThreshold s1) = true ->
  F32.valid (getDistanceThreshold s2) = true ->
  F32.leb (getDistanceThreshold s1) (getDistanceThreshold s2) = true ->
  F32.leb (getColorThreshold s1) (getColorThreshold s2) = true ->
  result (compare i j s1) = Some true ->
  result (compare i j s2) = Some true.
Proof.
  unfold getDistanceThreshold, getColorThreshold.
  intros Ein En Ea V1 V2 Ld Lc Hacc.
  destruct (compare_true_inv s1 i j Hacc)
    as (cloud & ncloud & p1 & p2 & n1 & n2 &
        Hin & Hn & H1 & H2 & H3 & H4 & Hd & Ha & Hc).
  rewrite <- Ein in Hin. rewrite <- En in Hn.
  rewrite (compare_in_bounds s2 i j cloud ncloud p1 p2 n1 n2) by assumption.
  unfold distance_test, normal_test, color_test, F64.ltb, F32.ltb, F32.leb in *.
  assert (Ld' : SFleb (float_to_double (distance_threshold_ s1))
                      (float_to_double (distance_threshold_ s2)) = true).
  { unfold SFleb in *. now rewrite (float_to_double_compare _ _ V1 V2). }
  rewrite (SFltb_leb_trans _ _ _ Hd Ld'), (SFltb_leb_trans _ _ _ Hc Lc).
  rewrite Ea, Ha. reflexivity.
Qed.

Lemma larger_stored_thresholds_keep_accepted_pairs_witness :
  result (compare 0 1 (setDistanceThreshold (int_to_float 1)
                         (setColorThreshold (int_to_float 10) sample_comparator)))
  = Some true.
Proof.
  apply (larger_stored_thresholds_keep_accepted_pairs sample_comparator
           (setDistanceThreshold (int_to_float 1)
              (setColorThreshold (int_to_float 10) sample_comparator)) 0 1);
    reflexivity.
Defined.

(** ** Where the call is defined, and what it reads *)

Lemma compare_entries (s : Comparator) (i j : Z) :
  compare i j s =
  match entry_at (input_ s) i, entry_at (input_ s) j with
  | Some p1, Some p2 =>
      if distance_test s p1 p2 then
        match entry_at (normals_ s) i, entry_at (normals_ s) j with
        | Some n1, Some n2 => Some (normal_test s n1 n2 && color_test s p1 p2, s)
        | _, _ => None
        end
      else Some (false, s)
  | _, _ => None
  end.
Proof.
  unfold entry_at.
  destruct (input_ s) as [cloud|] eqn:Hin;
    [|unfold compare, bind, member, deref; now rewrite Hin].
  destruct (at_index cloud i) as [p1|] eqn:H1;
    [|unfold compare, bind, member, deref, index; now rewrite Hin, H1].
  destruct (at_index cloud j) as [p2|] eqn:H2;
    [|unfold compare, bind, member, deref, index; now rewrite Hin, H1, H2].
  rewrite (compare_cloud s i j cloud p1 p2 Hin H1 H2).
  destruct (distance_test s p1 p2); [|reflexivity].
  destruct (normals_ s) as [ncloud|]; [|reflexivity].
  destruct (at_index ncloud i) as [n1|]; [|reflexivity].
  destruct (at_index ncloud j) as [n2|]; reflexivity.
Qed.

(** X7. The call is undefined in exactly two situations: an index is
    outside the configured point sequence (or none is configured); or both
    points are there and closer than the distance threshold, and an index
    is outside the configured normal sequence (or none is configured).
    Pairs that fail the distance test never need the normals. *)
Theorem compare_undefined_iff (s : Comparator) (i j : Z) :
  compare i j s = None <->
  entry_at (input_ s) i = None \/ entry_at (input_ s) j = None \/
  (exists p1 p2 : PointT.t,
      entry_at (input_ s) i = Some p1 /\ entry_at (input_ s) j = Some p2 /\
      distance_test s p1 p2 = true /\
      (entry_at (normals_ s) i = None \/ entry_at (normals_ s) j = None)).
Proof.
  rewrite compare_entries.
  destruct (entry_at (input_ s) i) as [p1|]; [|split; [now left|reflexivity]].
  destruct (entry_at (input_ s) j) as [p2|];
    [|split; [right; now left|reflexivity]].
  destruct (distance_test s p1 p2) eqn:Hd.
  - destruct (entry_at (normals_ s) i) as [n1|].
    + destruct (entry_at (normals_ s) j) as [n2|].
      * split; [discriminate|].
        intros [H|[H|(q1 & q2 & _ & _ & _ & [H|H])]]; discriminate H.
      * split; [|reflexivity]. intros _. right; right.
        exists p1, p2. repeat split; try assumption. now right.
    + split; [|reflexivity]. intros _. right; right.
      exists p1, p2. repeat split; try assumption. now left.
  - split; [discriminate|].
    intros [H|[H|(q1 & q2 & E1 & E2 & Hq & _)]]; try discriminate H.
    inversion E1; inversion E2; subst. rewrite Hd in Hq. discriminate Hq.
Qed.

(** X8. The result depends on the two indexed entries only: two objects
    with the same stored thresholds whose point sequences agree at [i] and
    at [j], and whose normal sequences agree at [i] and at [j], give the
    same result of [compare (i, j)], whatever else the sequences hold and
    however long they are. *)
Theorem compare_reads_only_two_entries (s1 s2 : Comparator) (i j : Z) :
  entry_at (input_ s1) i = entry_at (input_ s2) i ->
  entry_at (input_ s1) j = entry_at (input_ s2) j ->
  entry_at (normals_ s1) i = entry_at (normals_ s2) i ->
  entry_at (normals_ s1) j = entry_at (normals_ s2) j ->
  angular_threshold_ s1 = angular_threshold_ s2 ->
  distance_threshold_ s1 = distance_threshold_ s2 ->
  color_threshold_ s1 = color_threshold_ s2 ->
  result (compare i j s1) = result (compare i j s2).
Proof.
  intros Ei Ej Ni Nj Ea Ed Ec.
  rewrite !compare_entries, Ei, Ej, Ni, Nj.
  unfold distance_test, normal_test, color_test. rewrite Ea, Ed, Ec.
  destruct (entry_at (input_ s2) i) as [p1|]; [|reflexivity].
  destruct (entry_at (input_ s2) j) as [p2|]; [|reflexivity].
  destruct (F64.ltb _ _); [|reflexivity].
  destruct (entry_at (normals_ s2) i) as [n1|]; [|reflexivity].
  destruct (entry_at (normals_ s2) j) as [n2|]; reflexivity.
Qed.

Lemma compare_reads_only_two_entries_witness :
  result (compare 0 1 sample_comparator) =
  result (compare 0 1 (setInputNormals (Some other_normals)
                         (setInputCloud (Some other_cloud) sample_comparator))).
Proof.
  apply (compare_reads_only_two_entries sample_comparator
           (setInputNormals (Some other_normals)
              (setInputCloud (Some other_cloud) sample_comparator)) 0 1);
    reflexivity.
Defined.

(** ** Reversed normals *)

Lemma SFmul_opp_opp (prec emax : Z) (a b : spec_float) :
  SFmul prec emax (SFopp a) (SFopp b) = SFmul prec emax a b.
Proof.
  destruct a as [sa|sa| |sa ma ea], b as [sb|sb| |sb mb eb]; simpl;
    try reflexivity; now destruct sa, sb.
Qed.

Lemma dot_flip (a b : PointNT.t) : dot (flip_normal a) (flip_normal b) = dot a b.
Proof.
  unfold dot, flip_normal, F32.mul. simpl. now rewrite !SFmul_opp_opp.
Qed.

Lemma at_index_map {A B} (f : A -> B) (l : list A) (i : Z) :
  at_index (map f l) i = option_map f (at_index l i).
Proof.
  unfold at_index. destruct (i <? 0); [reflexivity|].
  apply nth_error_map.
Qed.

(** X9. Reversing the orientation of every normal of the installed normal
    sequence changes no result of [compare]: the dot product of two
    reversed normals is, bit for bit, the dot product of the two
    normals. *)
Theorem compare_ignores_common_normal_orientation (s : Comparator) (i j : Z) :
  result (compare i j
            (setInputNormals (option_map (map flip_normal) (normals_ s)) s))
  = result (compare i j s).
Proof.
  rewrite !compare_entries.
  unfold distance_test, normal_test, color_test. simpl.
  destruct (entry_at (input_ s) i) as [p1|]; [|reflexivity].
  destruct (entry_at (input_ s) j) as [p2|]; [|reflexivity].
  destruct (F64.ltb _ _); [|reflexivity].
  destruct (normals_ s) as [ncloud|]; [|reflexivity]. simpl.
  rewrite !at_index_map.
  destruct (at_index ncloud i) as [n1|]; [|reflexivity].
  destruct (at_index ncloud j) as [n2|]; [|reflexivity].
  simpl. now rewrite dot_flip.
Qed.

(** ** Runs of configuration calls *)

Lemma run_snoc `{Libm} (cs : list call) (c : call) (s : Comparator) :
  run (cs ++ [c]) s = do_call c (run cs s).
Proof. unfold run. now rewrite fold_left_app. Qed.

Lemma last_of_snoc {A} (sel : call -> option A) (cs : list call) (c : call) :
  last_of sel (cs ++ [c]) =
  match sel c with Some a => Some a | None => last_of sel cs end.
Proof. unfold last_of. now rewrite fold_left_app. Qed.

(** X10. Configuration calls do not disturb one another: after any run of
    calls, each getter reports what the last call of its own setter stored
    (the square of its argument for the distance and colour thresholds,
    [acosf] of [cosf] of it for the angle, the sequence itself for the
    normals), or what the object held before the run if there was no such
    call. *)
Theorem getters_report_last_matching_call
        `{Libm} (cs : list call) (s : Comparator) :
  getDistanceThreshold (run cs s) =
    match last_of sel_distance cs with
    | Some d => F32.mul d d
    | None => getDistanceThreshold s
    end /\
  getColorThreshold (run cs s) =
    match last_of sel_color cs with
    | Some c => F32.mul c c
    | None => getColorThreshold s
    end /\
  getAngularThreshold (run cs s) =
    match last_of sel_angular cs with
    | Some a => acosf (cosf a)
    | None => getAngularThreshold s
    end /\
  getInputNormals (run cs s) =
    match last_of sel_normals cs with
    | Some n => n
    | None => getInputNormals s
    end.
Proof.
  induction cs as [|c cs IH] using rev_ind; [repeat split; reflexivity|].
  destruct IH as (Id & Ic & Ia & In).
  rewrite run_snoc, !last_of_snoc.
  destruct c; simpl; repeat split; assumption || reflexivity.
Qed.

(** ** Accepted pairs, channel by channel *)

Lemma square_lt_abs (d c : Z) : 0 <= c -> d * d < c * c -> Z.abs d < c.
Proof. intros Hc H. apply Z.abs_lt. nia. Qed.

(** X11. After [setColorThreshold (c)] for an integer [0 <= c <= 4095],
    the two points of every accepted pair differ by less than [c] in each
    of the red, green and blue channels. *)
Theorem accepted_pair_channels_within_threshold
        (c : Z) (s : Comparator) (i j : Z) :
  0 <= c <= 4095 ->
  result (compare i j (setColorThreshold (int_to_float c) s)) = Some true ->
  exists p1 p2 : PointT.t,
    entry_at (input_ s) i = Some p1 /\ entry_at (input_ s) j = Some p2 /\
    Z.abs (chan (PointT.r p1) - chan (PointT.r p2)) < c /\
    Z.abs (chan (PointT.g p1) - chan (PointT.g p2)) < c /\
    Z.abs (chan (PointT.b p1) - chan (PointT.b p2)) < c.
Proof.
  intros Hc Hacc.
  destruct (compare_true_inv _ i j Hacc)
    as (cloud & ncloud & p1 & p2 & n1 & n2 &
        Hin & Hn & H1 & H2 & H3 & H4 & Hd & Ha & Hct).
  rewrite (color_test_integer c s p1 p2 Hc) in Hct. apply Z.ltb_lt in Hct.
  simpl in Hin. exists p1, p2. unfold entry_at. rewrite Hin.
  split; [exact H1|]. split; [exact H2|].
  unfold squared_color_distance in Hct. simpl in Hct.
  pose proof (Z.square_nonneg (chan (PointT.r p1) - chan (PointT.r p2))).
  pose proof (Z.square_nonneg (chan (PointT.g p1) - chan (PointT.g p2))).
  pose proof (Z.square_nonneg (chan (PointT.b p1) - chan (PointT.b p2))).
  repeat split; apply square_lt_abs; lia.
Qed.

Lemma accepted_pair_channels_within_threshold_witness :
  exists p1 p2 : PointT.t,
    entry_at (input_ sample_comparator) 0 = Some p1 /\
    entry_at (input_ sample_comparator) 1 = Some p2 /\
    Z.abs (chan (PointT.r p1) - chan (PointT.r p2)) < 6 /\
    Z.abs (chan (PointT.g p1) - chan (PointT.g p2)) < 6 /\
    Z.abs (chan (PointT.b p1) - chan (PointT.b p2)) < 6.
Proof.
  apply (accepted_pair_channels_within_threshold 6 sample_comparator 0 1);
    [lia | reflexivity].
Defined.

(** ** Normals with a NaN component *)

Lemma SFmul_nan_l (prec emax : Z) (a b : spec_float) :
  is_nan a = true -> SFmul prec emax a b = S754_nan.
Proof. destruct a; simpl; try discriminate. reflexivity. Qed.

Lemma SFmul_nan_r (prec emax : Z) (a b : spec_float) :
  is_nan b = true -> SFmul prec emax a b = S754_nan.
Proof. intros H. rewrite SFmul_comm. now apply SFmul_nan_l. Qed.

Lemma SFadd_nan_l (prec emax : Z) (b : spec_float) :
  SFadd prec emax S754_nan b = S754_nan.
Proof. reflexivity. Qed.

Lemma SFadd_nan_r (prec emax : Z) (a : spec_float) :
  SFadd prec emax a S754_nan = S754_nan.
Proof. now rewrite SFadd_comm. Qed.

Lemma dot_nan (a b : PointNT.t) :
  has_nan_component a || has_nan_component b = true -> dot a b = S754_nan.
Proof.
  unfold has_nan_component, dot, F32.add, F32.mul. intros H.
  destruct (is_nan (PointNT.normal_x a)) eqn:Ax;
    [now rewrite (SFmul_nan_l _ _ _ _ Ax)|].
  destruct (is_nan (PointNT.normal_x b)) eqn:Bx;
    [now rewrite (SFmul_nan_r _ _ _ _ Bx)|].
  destruct (is_nan (PointNT.normal_y a)) eqn:Ay;
    [now rewrite (SFmul_nan_l _ _ _ _ Ay), SFadd_nan_l, SFadd_nan_r|].
  destruct (is_nan (PointNT.normal_y b)) eqn:By;
    [now rewrite (SFmul_nan_r _ _ _ _ By), SFadd_nan_l, SFadd_nan_r|].
  destruct (is_nan (PointNT.normal_z a)) eqn:Az;
    [now rewrite (SFmul_nan_l _ _ _ _ Az), !SFadd_nan_r|].
  destruct (is_nan (PointNT.normal_z b)) eqn:Bz;
    [now rewrite (SFmul_nan_r _ _ _ _ Bz), !SFadd_nan_r|].
  discriminate H.
Qed.

Lemma SFltb_nan_r (a : spec_float) : SFltb a S754_nan = false.
Proof. now destruct a. Qed.

(** X12. A pair one of whose normals has a NaN component is never
    accepted: with both sequences configured and the indices in bounds,
    [compare] returns false, whatever the thresholds, the positions and
    the colours. *)
Theorem nan_normal_rejected
        (s : Comparator) (i j : Z) (cloud : PointCloud) (ncloud : PointCloudN)
        (p1 p2 : PointT.t) (n1 n2 : PointNT.t) :
  input_ s = Some cloud -> normals_ s = Some ncloud ->
  at_index cloud i = Some p1 -> at_index cloud j = Some p2 ->
  at_index ncloud i = Some n1 -> at_index ncloud j = Some n2 ->
  has_nan_component n1 || has_nan_component n2 = true ->
  compare i j s = Some (false, s).
Proof.
  intros Hin Hn H1 H2 H3 H4 Hnan.
  rewrite (compare_in_bounds s i j cloud ncloud p1 p2 n1 n2) by assumption.
  unfold normal_test, F32.ltb. rewrite (dot_nan n1 n2 Hnan), SFltb_nan_r.
  now rewrite andb_false_r.
Qed.

Lemma nan_normal_rejected_witness :
  compare 0 1 nan_normal_comparator = Some (false, nan_normal_comparator).
Proof.
  apply (nan_normal_rejected nan_normal_comparator 0 1
           sample_cloud [up; normal_nan; up] cell_a cell_b up normal_nan);
    reflexivity.
Defined.
